(** * serve_docs: a static documentation server

    The program under study is [docs/serve_docs.py]: a [Handler] class
    deriving from [http.server.SimpleHTTPRequestHandler] with its
    directory fixed to [DIRECTORY], and a [main] function that builds a
    [socketserver.TCPServer] on [("", PORT)], prints the URL, launches
    the browser and runs [serve_forever] until a [KeyboardInterrupt].

    The script is a composition of calls into Python's standard library
    (3.11), so the embedding has two layers:

    - the library functions the script reaches ([str] methods,
      [posixpath], [urllib.parse], [os], [http.server], [socketserver],
      [webbrowser], [pathlib]), each transcribed from the library's own
      source under a module named after it;
    - the script itself, in [Module ServeDocs], keeping the names
      [PORT], [DIRECTORY], [Handler] and [main].

    Representation choices.
    - A Python [str] is a Rocq [string] holding its UTF-8 bytes; request
      targets are ASCII, other bytes arrive percent-encoded.
    - A file's content is a [list byte].
    - The file system is a tree of regular files and directories (no
      symbolic links), each with a read permission bit.
    - Python exceptions are an error value threaded by a small monad;
      a call that never returns (a blocking [select] or [Event.wait])
      is the third outcome [Blocked]. *)

From Stdlib Require Import String Ascii List Bool Arith ZArith NArith Lia.
From Stdlib Require Import Init.Byte DecimalString.
Import ListNotations.
Local Open Scope list_scope.
Local Open Scope string_scope.

(** ** Python [str] methods *)

Module Str.

(** [s.split(sep)] for a one-character separator. *)
Fixpoint split (sep : ascii) (s : string) : list string :=
  match s with
  | EmptyString => [EmptyString]
  | String c s' =>
      if Ascii.eqb c sep then EmptyString :: split sep s'
      else match split sep s' with
           | [] => [String c EmptyString]
           | w :: ws => String c w :: ws
           end
  end.

(** [s.split(sep, 1)[0]]: the text before the first separator. *)
Fixpoint before (sep : ascii) (s : string) : string :=
  match s with
  | EmptyString => EmptyString
  | String c s' => if Ascii.eqb c sep then EmptyString else String c (before sep s')
  end.

(** [sep.join(words)]. *)
Definition join (sep : string) (words : list string) : string :=
  String.concat sep words.

(** [s.startswith(p)]. *)
Definition startswith (s p : string) : bool := String.prefix p s.

(** [s.endswith(c)] for a one-character suffix. *)
Fixpoint endswith (s : string) (c : ascii) : bool :=
  match s with
  | EmptyString => false
  | String a EmptyString => Ascii.eqb a c
  | String _ s' => endswith s' c
  end.

(** [c in s]. *)
Fixpoint contains (s : string) (c : ascii) : bool :=
  match s with
  | EmptyString => false
  | String a s' => Ascii.eqb a c || contains s' c
  end.

(** [c.isspace()] on the ASCII range: TAB, LF, VT, FF, CR, FS, GS, RS,
    US and the space. *)
Definition isspace (c : ascii) : bool :=
  let n := nat_of_ascii c in
  ((9 <=? n)%nat && (n <=? 13)%nat) || ((28 <=? n)%nat && (n <=? 32)%nat).

(** [s.rstrip()]: trailing whitespace removed. *)
Fixpoint rstrip (s : string) : string :=
  match s with
  | EmptyString => EmptyString
  | String c s' =>
      match rstrip s' with
      | EmptyString => if isspace c then EmptyString else String c EmptyString
      | t => String c t
      end
  end.

(** [c.lower()] and [s.lower()] on the ASCII range. *)
Definition lower_char (c : ascii) : ascii :=
  let n := nat_of_ascii c in
  if (65 <=? n)%nat && (n <=? 90)%nat then ascii_of_nat (n + 32) else c.

Fixpoint lower (s : string) : string :=
  match s with
  | EmptyString => EmptyString
  | String c s' => String (lower_char c) (lower s')
  end.

(** [s * n] for a one-character [s]. *)
Fixpoint repeat_char (c : ascii) (n : nat) : string :=
  match n with
  | O => EmptyString
  | S n' => String c (repeat_char c n')
  end.

End Str.

(** ** [posixpath] *)

Module PosixPath.

Definition sep : ascii := "/"%char.
Definition curdir : string := ".".
Definition pardir : string := "..".

(** One turn of the loop of [normpath] over [comps]; [new_comps] is
    kept with its last element first. *)
Definition normpath_step (initial_slashes : nat) (new_comps : list string)
    (comp : string) : list string :=
  if (comp =? "") || (comp =? curdir) then new_comps
  else if negb (comp =? pardir)
          || ((initial_slashes =? 0)%nat && match new_comps with [] => true | _ => false end)
          || match new_comps with last :: _ => last =? pardir | [] => false end
  then comp :: new_comps
  else match new_comps with
       | _ :: rest => rest
       | [] => []
       end.

(** [posixpath.normpath]. *)
Definition normpath (path : string) : string :=
  if path =? "" then curdir
  else
    let initial_slashes :=
      if Str.startswith path "/" then
        if Str.startswith path "//" && negb (Str.startswith path "///") then 2%nat
        else 1%nat
      else 0%nat in
    let comps := Str.split sep path in
    let new_comps := rev (fold_left (normpath_step initial_slashes) comps []) in
    let path := Str.join "/" new_comps in
    let path := Str.repeat_char sep initial_slashes ++ path in
    if path =? "" then curdir else path.

(** [posixpath.join(a, b)] with one extra component. *)
Definition join (a b : string) : string :=
  if Str.startswith b "/" then b
  else if (a =? "") || Str.endswith a sep then a ++ b
  else a ++ "/" ++ b.

(** The text up to and including the last separator ([p[:i]] with
    [i = p.rfind('/') + 1]). *)
Fixpoint head_of (p : string) : string :=
  match p with
  | EmptyString => EmptyString
  | String c p' =>
      if Str.contains p sep then String c (head_of p') else EmptyString
  end.

(** [s.rstrip('/')]. *)
Fixpoint rstrip_sep (s : string) : string :=
  match s with
  | EmptyString => EmptyString
  | String c s' =>
      match rstrip_sep s' with
      | EmptyString => if Ascii.eqb c sep then EmptyString else String c EmptyString
      | t => String c t
      end
  end.

(** [posixpath.dirname]. *)
Definition dirname (p : string) : string :=
  let head := head_of p in
  if negb (head =? "") && negb (head =? Str.repeat_char sep (String.length head))
  then rstrip_sep head else head.

(** The extension found by [posixpath.splitext]: the text from the
    last dot of the last component, unless that dot is preceded only
    by dots; [None] stands for the empty extension.  The component is
    scanned from its start: [seen] tells whether a character other
    than a dot was met. *)
Fixpoint ext_scan (seen : bool) (s : string) : option string :=
  match s with
  | EmptyString => None
  | String c s' =>
      match ext_scan (seen || negb (Ascii.eqb c "."%char)) s' with
      | Some e => Some e
      | None => if Ascii.eqb c "."%char && seen then Some s else None
      end
  end.

Definition basename (p : string) : string :=
  last (Str.split sep p) "".

Definition splitext_ext (p : string) : string :=
  match ext_scan false (basename p) with
  | Some e => e
  | None => ""
  end.

End PosixPath.

(** ** [urllib.parse] *)

Module UrlParse.

Definition hexval (c : ascii) : option nat :=
  let n := nat_of_ascii c in
  if (48 <=? n)%nat && (n <=? 57)%nat then Some (n - 48)
  else if (65 <=? n)%nat && (n <=? 70)%nat then Some (n - 55)
  else if (97 <=? n)%nat && (n <=? 102)%nat then Some (n - 87)
  else None.

(** [unquote]: every [%XX] with two hexadecimal digits becomes the
    byte it names; any other [%] stays. *)
Fixpoint unquote (s : string) : string :=
  match s with
  | EmptyString => EmptyString
  | String c s1 =>
      if Ascii.eqb c "%"%char then
        match s1 with
        | String h (String l rest) =>
            match hexval h, hexval l with
            | Some a, Some b => String (ascii_of_nat (16 * a + b)) (unquote rest)
            | _, _ => String c (unquote s1)
            end
        | _ => String c (unquote s1)
        end
      else String c (unquote s1)
  end.

(** Characters [quote] never encodes: letters, digits, [_.-~], and
    the default [safe='/']. *)
Definition always_safe (c : ascii) : bool :=
  let n := nat_of_ascii c in
  ((48 <=? n)%nat && (n <=? 57)%nat) || ((65 <=? n)%nat && (n <=? 90)%nat)
  || ((97 <=? n)%nat && (n <=? 122)%nat)
  || Ascii.eqb c "_" || Ascii.eqb c "." || Ascii.eqb c "-" || Ascii.eqb c "~".

Definition hexdigit (n : nat) : ascii :=
  if (n <? 10)%nat then ascii_of_nat (48 + n) else ascii_of_nat (55 + n).

(** [quote(s)] with the default [safe='/']. *)
Fixpoint quote (s : string) : string :=
  match s with
  | EmptyString => EmptyString
  | String c s' =>
      if always_safe c || Ascii.eqb c "/" then String c (quote s')
      else
        let n := nat_of_ascii c in
        String "%" (String (hexdigit (n / 16)) (String (hexdigit (n mod 16)) (quote s')))
  end.

(** The [path] field of [urlsplit(target)] for a request target in
    origin form: the text before the first [?] or [#]. *)
Definition urlsplit_path (target : string) : string :=
  Str.before "?" (Str.before "#" target).

End UrlParse.

(** ** Exceptions and outcomes of a call *)

Inductive exn : Type :=
| OSError
| ValueError
| KeyboardInterrupt.

(** [KeyboardInterrupt] derives from [BaseException] only: an
    [except Exception] clause does not catch it. *)
Definition is_Exception (e : exn) : bool :=
  match e with
  | KeyboardInterrupt => false
  | OSError | ValueError => true
  end.

Definition exn_eqb (a b : exn) : bool :=
  match a, b with
  | OSError, OSError | ValueError, ValueError
  | KeyboardInterrupt, KeyboardInterrupt => true
  | _, _ => false
  end.

(** Where a call that never returns is waiting. *)
Inductive wait : Type :=
| InSelect      (* [selector.select] with nothing ever arriving *)
| InEventWait.  (* [Event.wait] on an event nobody sets *)

Inductive result (A : Type) : Type :=
| Returned (a : A)
| Raised (e : exn)
| Blocked (w : wait).

Arguments Returned {A} a.
Arguments Raised {A} e.
Arguments Blocked {A} w.

(** ** [os] and [os.path] over a tree-shaped file system *)

Module Os.

#[warnings="-register-all"] Inductive node : Type :=
| File (readable : bool) (content : list byte)
| Dir (readable : bool) (entries : list (string * node)).

Fixpoint child (name : string) (entries : list (string * node)) : option node :=
  match entries with
  | [] => None
  | (n, x) :: rest => if n =? name then Some x else child name rest
  end.

(** The node at a location, a list of names read from the top. *)
Fixpoint lookup (d : node) (loc : list string) : option node :=
  match loc with
  | [] => Some d
  | name :: rest =>
      match d with
      | Dir _ entries =>
          match child name entries with
          | Some x => lookup x rest
          | None => None
          end
      | File _ _ => None
      end
  end.

Definition is_dir_at (d : node) (loc : list string) : bool :=
  match lookup d loc with
  | Some (Dir _ _) => true
  | _ => false
  end.

(** One component of a path walked by the kernel from location
    [cur]: the current node must be a directory; an empty component
    and [.] stay, [..] goes up, a name goes down to that entry. *)
Definition walk_step (d : node) (cur : option (list string)) (comp : string)
    : option (list string) :=
  match cur with
  | None => None
  | Some loc =>
      if is_dir_at d loc then
        if (comp =? "") || (comp =? ".") then Some loc
        else if comp =? ".." then Some (removelast loc)
        else match lookup d (loc ++ [comp])%list with
             | Some _ => Some (loc ++ [comp])%list
             | None => None
             end
      else None
  end.

(** The location a path names, for a process whose working directory
    is at [cwd]; [None] when the walk fails ([ENOENT], [ENOTDIR]). *)
Definition namei (d : node) (cwd : list string) (path : string)
    : option (list string) :=
  if path =? "" then None
  else fold_left (walk_step d) (Str.split "/" path)
                 (Some (if Str.startswith path "/" then [] else cwd)).

Definition has_nul (path : string) : bool := Str.contains path zero.

(** A single name, as opposed to a path, [.] or [..]. *)
Definition plain_name (w : string) : bool :=
  negb (w =? "") && negb (Str.contains w "/")
  && negb (w =? ".") && negb (w =? "..").

(** A name a directory entry can bear. *)
Definition file_name (w : string) : bool :=
  plain_name w && negb (has_nul w).

(** [os.stat(path)]: a path with an embedded null byte is refused
    with [ValueError] before the kernel sees it. *)
Definition stat (d : node) (cwd : list string) (path : string) : result node :=
  if has_nul path then Raised ValueError
  else match namei d cwd path with
       | Some loc =>
           match lookup d loc with
           | Some x => Returned x
           | None => Raised OSError
           end
       | None => Raised OSError
       end.

(** [os.path.isdir] and [os.path.isfile]: [stat] under
    [except (OSError, ValueError): return False]. *)
Definition isdir (d : node) (cwd : list string) (path : string) : bool :=
  match stat d cwd path with
  | Returned (Dir _ _) => true
  | _ => false
  end.

Definition isfile (d : node) (cwd : list string) (path : string) : bool :=
  match stat d cwd path with
  | Returned (File _ _) => true
  | _ => false
  end.

(** [open(path, 'rb')] followed by reading the file to its end. *)
Definition open_rb (d : node) (cwd : list string) (path : string)
    : result (list byte) :=
  match stat d cwd path with
  | Returned (File true content) => Returned content
  | Returned (File false _) => Raised OSError      (* EACCES *)
  | Returned (Dir _ _) => Raised OSError           (* EISDIR *)
  | Raised e => Raised e
  | Blocked w => Blocked w
  end.

(** [os.listdir(path)]. *)
Definition listdir (d : node) (cwd : list string) (path : string)
    : result (list string) :=
  match stat d cwd path with
  | Returned (Dir true entries) => Returned (map fst entries)
  | Returned (Dir false _) => Raised OSError       (* EACCES *)
  | Returned (File _ _) => Raised OSError          (* ENOTDIR *)
  | Raised e => Raised e
  | Blocked w => Blocked w
  end.

End Os.

(** ** [pathlib]: pure POSIX paths *)

Module Pathlib.

Record PurePath : Type := mkPath { root : string; parts : list string }.

(** [Path(s)]: the root is [/], or [//] for exactly two leading
    slashes; empty components and [.] are dropped. *)
Definition Path (s : string) : PurePath :=
  {| root := if Str.startswith s "/" then
               if Str.startswith s "//" && negb (Str.startswith s "///")
               then "//" else "/"
             else "";
     parts := filter (fun x => negb (x =? "") && negb (x =? "."))
                     (Str.split "/" s) |}.

(** [p.parent]: the path without its last part; a path with no part
    is its own parent. *)
Definition parent (p : PurePath) : PurePath :=
  match parts p with
  | [] => p
  | _ :: _ => {| root := root p; parts := removelast (parts p) |}
  end.

(** [str(p)]. *)
Definition str (p : PurePath) : string :=
  let s := root p ++ Str.join "/" (parts p) in
  if s =? "" then "." else s.

End Pathlib.

(** ** [http.server]: [SimpleHTTPRequestHandler]

    A request is what [parse_request] leaves in [self.command] and
    [self.path] for a well-formed request line carrying no conditional
    header.  A response is the status, the headers that do not depend
    on the clock or on generated HTML, and the body written to the
    client. *)

Module HttpServer.

Record request : Type := mkRequest { command : string; path : string }.

Inductive body : Type :=
| NoBody
| FileContent (content : list byte)
| DirectoryListing (names : list string)   (* the generated HTML index *)
| ErrorPage (code : Z) (message : string). (* the generated HTML error page *)

Record response : Type :=
  mkResponse { status : Z; headers : list (string * string); payload : body }.

Definition OK : Z := 200.
Definition MOVED_PERMANENTLY : Z := 301.
Definition NOT_FOUND : Z := 404.
Definition NOT_IMPLEMENTED : Z := 501.

Fixpoint assoc {A : Type} (key : string) (table : list (string * A)) : option A :=
  match table with
  | [] => None
  | (k, v) :: rest => if k =? key then Some v else assoc key rest
  end.

Definition str_of_nat (n : nat) : string :=
  NilZero.string_of_uint (Nat.to_uint n).

(** [send_error(code, message)]: the explanatory page is left out
    for a [HEAD] request and for the codes that never carry a body. *)
Definition send_error (cmd : string) (code : Z) (message : string) : response :=
  let has_body :=
    (200 <=? code)%Z && negb ((code =? 204)%Z || (code =? 205)%Z || (code =? 304)%Z) in
  {| status := code;
     headers := ("Connection", "close")
                :: (if has_body then [("Content-Type", "text/html;charset=utf-8")] else []);
     payload := if negb (cmd =? "HEAD") && has_body
                then ErrorPage code message else NoBody |}.

Definition extensions_map : list (string * string) :=
  [ (".gz", "application/gzip");
    (".Z", "application/octet-stream");
    (".bz2", "application/x-bzip2");
    (".xz", "application/x-xz") ].

Definition index_pages : list string := ["index.html"; "index.htm"].

(** [s.lstrip('/')]. *)
Fixpoint lstrip_slash (s : string) : string :=
  match s with
  | String c s' => if Ascii.eqb c "/" then lstrip_slash s' else s
  | EmptyString => EmptyString
  end.

(** The end of [parse_request]: a target starting with [//] is
    reduced to a single leading slash. *)
Definition collapse_slashes (path : string) : string :=
  if Str.startswith path "//" then "/" ++ lstrip_slash path else path.

(** The text after the first separator, empty when there is none. *)
Fixpoint after (sep : ascii) (s : string) : string :=
  match s with
  | EmptyString => EmptyString
  | String c s' => if Ascii.eqb c sep then s' else after sep s'
  end.

(** [translate_path]: the local file name for a request target. *)
Definition translate_path (directory : string) (path : string) : string :=
  let path := Str.before "?" path in
  let path := Str.before "#" path in
  let trailing_slash := Str.endswith (Str.rstrip path) "/" in
  let path := UrlParse.unquote path in
  let path := PosixPath.normpath path in
  let words := Str.split "/" path in
  let words := filter (fun w => negb (w =? "")) words in
  let path :=
    fold_left
      (fun path word =>
         if negb (PosixPath.dirname word =? "")
            || (word =? PosixPath.curdir) || (word =? PosixPath.pardir)
         then path
         else PosixPath.join path word)
      words directory in
  if trailing_slash then path ++ "/" else path.

(** The words [translate_path] appends to the directory, and whether
    it ends the result with a slash. *)
Definition ignored_word (word : string) : bool :=
  negb (PosixPath.dirname word =? "")
  || (word =? PosixPath.curdir) || (word =? PosixPath.pardir).

Definition requested_words (path : string) : list string :=
  let path := Str.before "#" (Str.before "?" path) in
  let words := Str.split "/" (PosixPath.normpath (UrlParse.unquote path)) in
  filter (fun w => negb (ignored_word w)) (filter (fun w => negb (w =? "")) words).

Definition trailing_slash (path : string) : bool :=
  Str.endswith (Str.rstrip (Str.before "#" (Str.before "?" path))) "/".

Section Handler.

(** [mimetypes.guess_type]: the MIME table of the platform, which
    the repository does not own. *)
Variable mimetypes_guess_type : string -> option string.

Variable disk : Os.node.
Variable cwd : list string.
Variable directory : string.

(** [guess_type]. *)
Definition guess_type (path : string) : string :=
  let ext := PosixPath.splitext_ext path in
  match assoc ext extensions_map with
  | Some t => t
  | None =>
      match assoc (Str.lower ext) extensions_map with
      | Some t => t
      | None =>
          match mimetypes_guess_type path with
          | Some guess => if guess =? "" then "application/octet-stream" else guess
          | None => "application/octet-stream"
          end
      end
  end.

(** [list_directory]. *)
Definition list_directory (cmd : string) (path : string)
    : result (response * option body) :=
  match Os.listdir disk cwd path with
  | Raised OSError =>
      Returned (send_error cmd NOT_FOUND "No permission to list directory", None)
  | Raised e => Raised e
  | Blocked w => Blocked w
  | Returned names =>
      Returned ({| status := OK;
                   headers := [("Content-type", "text/html; charset=utf-8")];
                   payload := NoBody |},
                Some (DirectoryListing names))
  end.

(** The redirection of a directory requested without its final
    slash: the same target with [/] appended to its path. *)
Definition redirect_location (target : string) : string :=
  let url := Str.before "#" target in
  let fragment := after "#" target in
  let query := after "?" url in
  Str.before "?" url ++ "/"
  ++ (if query =? "" then "" else "?" ++ query)
  ++ (if fragment =? "" then "" else "#" ++ fragment).

(** The tail of [send_head], once [path] is not a directory to be
    listed or redirected. *)
Definition send_file (cmd : string) (path : string)
    : result (response * option body) :=
  let ctype := guess_type path in
  if Str.endswith path "/" then
    Returned (send_error cmd NOT_FOUND "File not found", None)
  else
    match Os.open_rb disk cwd path with
    | Raised OSError => Returned (send_error cmd NOT_FOUND "File not found", None)
    | Raised e => Raised e
    | Blocked w => Blocked w
    | Returned content =>
        Returned ({| status := OK;
                     headers := [("Content-type", ctype);
                                 ("Content-Length", str_of_nat (List.length content))];
                     payload := NoBody |},
                  Some (FileContent content))
    end.

(** [send_head]: the status line and headers, and the file object
    the caller still has to copy, if any. *)
Definition send_head (req : request) : result (response * option body) :=
  let path := translate_path directory (path req) in
  if Os.isdir disk cwd path then
    if negb (Str.endswith (UrlParse.urlsplit_path (HttpServer.path req)) "/") then
      Returned ({| status := MOVED_PERMANENTLY;
                   headers := [("Location", redirect_location (HttpServer.path req));
                               ("Content-Length", "0")];
                   payload := NoBody |}, None)
    else
      match find (fun index => Os.isfile disk cwd (PosixPath.join path index))
                 index_pages with
      | Some index => send_file (command req) (PosixPath.join path index)
      | None => list_directory (command req) path
      end
  else send_file (command req) path.

(** [do_GET]: the file object, when there is one, is copied to the
    client. *)
Definition do_GET (req : request) : result response :=
  match send_head req with
  | Returned (head, Some f) =>
      Returned {| status := status head; headers := headers head; payload := f |}
  | Returned (head, None) => Returned head
  | Raised e => Raised e
  | Blocked w => Blocked w
  end.

(** [do_HEAD]: the file object is closed unread. *)
Definition do_HEAD (req : request) : result response :=
  match send_head req with
  | Returned (head, _) => Returned head
  | Raised e => Raised e
  | Blocked w => Blocked w
  end.

(** The [do_*] attributes of the handler class. *)
Definition methods : list (string * (request -> result response)) :=
  [("do_GET", do_GET); ("do_HEAD", do_HEAD)].

(** [handle_one_request] after a successful [parse_request], whose
    last rewriting of the target is included. *)
Definition handle_one_request (req : request) : result response :=
  let req := {| command := command req; path := collapse_slashes (path req) |} in
  let mname := "do_" ++ command req in
  match assoc mname methods with
  | None =>
      Returned (send_error (command req) NOT_IMPLEMENTED "Unsupported method (%r)")
  | Some method => method req
  end.

End Handler.

End HttpServer.

(** ** The running process and its surroundings *)

Inductive socket_state : Type :=
| NoSocket
| Created
| Bound
| Listening
| Closed.

(** What became of an accepted connection. *)
Inductive reply : Type :=
| Answered (r : HttpServer.response)
| Dropped (e : exn).   (* closed without a response, traceback on stderr *)

(** The state the program reads and writes: the host's file system and
    port table, the server object held in [httpd], and what the process
    has emitted so far. *)
Record world : Type := mkWorld {
  disk : Os.node;
  cwd : list string;
  bound_addresses : list (string * Z); (* (host, port) of every bound TCP socket *)
  sock : socket_state;            (* httpd.socket *)
  shutdown_request : bool;        (* httpd.__shutdown_request *)
  is_shut_down : bool;            (* httpd.__is_shut_down, a threading.Event *)
  stdout : list string;           (* one entry per [print] *)
  browser_launches : list string; (* URLs a browser was made to display *)
  exchanges : list (HttpServer.request * reply)
}.

(** What arrives at the listening socket or at the process while
    [serve_forever] runs. *)
Inductive arrival : Type :=
| Connection (r : HttpServer.request)
| Sigint.

(** The statement during which an early interrupt signal is delivered. *)
Inductive startup_point : Type :=
| InConstructor
| InPrint
| InBrowserOpen.

Definition startup_point_eqb (a b : startup_point) : bool :=
  match a, b with
  | InConstructor, InConstructor | InPrint, InPrint
  | InBrowserOpen, InBrowserOpen => true
  | _, _ => false
  end.

(** What the program does not decide. *)
Record environment : Type := mkEnv {
  script : string;                            (* [__file__] *)
  mimetypes : string -> option string;        (* the platform's MIME table *)
  browsers : list bool;                       (* for each registered browser,
                                                 whether its [open] succeeds *)
  startup_signal : option startup_point;
  arrivals : list arrival
}.

(** A statement: from a world to an outcome and the world after. *)
Definition M (A : Type) : Type := world -> result A * world.

Definition ret {A : Type} (a : A) : M A := fun w => (Returned a, w).

Definition bind {A B : Type} (m : M A) (k : A -> M B) : M B :=
  fun w =>
    match m w with
    | (Returned a, w') => k a w'
    | (Raised e, w') => (Raised e, w')
    | (Blocked b, w') => (Blocked b, w')
    end.

Definition raise {A : Type} (e : exn) : M A := fun w => (Raised e, w).

Definition modify (f : world -> world) : M unit := fun w => (Returned tt, f w).

(** [try: m  except e: handler]. *)
Definition try_except {A : Type} (m : M A) (e : exn) (handler : M A) : M A :=
  fun w =>
    match m w with
    | (Raised e', w') => if exn_eqb e' e then handler w' else (Raised e', w')
    | other => other
    end.

(** [try: m  finally: final].  A body that never returns never reaches
    the [finally] clause. *)
Definition try_finally {A : Type} (m : M A) (final : M unit) : M A :=
  fun w =>
    match m w with
    | (Blocked b, w') => (Blocked b, w')
    | (r, w') =>
        match final w' with
        | (Returned _, w'') => (r, w'')
        | (Raised e, w'') => (Raised e, w'')
        | (Blocked b, w'') => (Blocked b, w'')
        end
    end.

Declare Scope monad_scope.
Delimit Scope monad_scope with monad.
Notation "x <- m ;; k" := (bind m (fun x => k))
  (at level 61, m at next level, right associativity) : monad_scope.
Notation "m ;; k" := (bind m (fun _ => k))
  (at level 61, right associativity) : monad_scope.
Local Open Scope monad_scope.

(** A statement during which the early signal may be delivered:
    [KeyboardInterrupt] is raised in its place. *)
Definition interruptible {A : Type} (env : environment) (pt : startup_point)
    (m : M A) : M A :=
  match startup_signal env with
  | Some pt' => if startup_point_eqb pt' pt then raise KeyboardInterrupt else m
  | None => m
  end.

Definition set_sock (s : socket_state) (w : world) : world :=
  mkWorld (disk w) (cwd w) (bound_addresses w) s (shutdown_request w)
          (is_shut_down w) (stdout w) (browser_launches w) (exchanges w).

Definition set_bound (p : list (string * Z)) (w : world) : world :=
  mkWorld (disk w) (cwd w) p (sock w) (shutdown_request w)
          (is_shut_down w) (stdout w) (browser_launches w) (exchanges w).

Definition set_shutdown_request (b : bool) (w : world) : world :=
  mkWorld (disk w) (cwd w) (bound_addresses w) (sock w) b
          (is_shut_down w) (stdout w) (browser_launches w) (exchanges w).

Definition set_is_shut_down (b : bool) (w : world) : world :=
  mkWorld (disk w) (cwd w) (bound_addresses w) (sock w) (shutdown_request w)
          b (stdout w) (browser_launches w) (exchanges w).

Definition add_stdout (line : string) (w : world) : world :=
  mkWorld (disk w) (cwd w) (bound_addresses w) (sock w) (shutdown_request w)
          (is_shut_down w) (stdout w ++ [line])%list (browser_launches w) (exchanges w).

Definition add_launch (url : string) (w : world) : world :=
  mkWorld (disk w) (cwd w) (bound_addresses w) (sock w) (shutdown_request w)
          (is_shut_down w) (stdout w) (browser_launches w ++ [url])%list (exchanges w).

Definition add_exchange (x : HttpServer.request * reply) (w : world) : world :=
  mkWorld (disk w) (cwd w) (bound_addresses w) (sock w) (shutdown_request w)
          (is_shut_down w) (stdout w) (browser_launches w) (exchanges w ++ [x])%list.

(** [print(line)]. *)
Definition print (line : string) : M unit := modify (add_stdout line).

(** ** [webbrowser] *)

Module Webbrowser.

(** [webbrowser.open(url)]: each registered browser is tried in turn
    and the first that opens the page wins; the answer is [False]
    when none does, in particular when none is registered. *)
Definition open (env : environment) (url : string) : M bool :=
  if existsb (fun launched => launched) (browsers env)
  then (modify (add_launch url) ;; ret true)
  else ret false.

End Webbrowser.

(** ** [socketserver]: [TCPServer] *)

Module SocketServer.

(** Two addresses clash when they name the same port and the same
    host, the empty host standing for every interface. *)
Definition clashes (a b : string * Z) : bool :=
  Z.eqb (snd a) (snd b) && ((fst a =? "") || (fst b =? "") || (fst a =? fst b)).

(** [socket.bind(address)], with neither [SO_REUSEADDR] nor
    [SO_REUSEPORT] set ([allow_reuse_address] and [allow_reuse_port]
    are [False]). *)
Definition socket_bind (address : string * Z) : M unit :=
  fun w =>
    if existsb (clashes address) (bound_addresses w)
    then (Raised OSError, w)                            (* EADDRINUSE *)
    else (Returned tt, set_sock Bound (set_bound (address :: bound_addresses w) w)).

Definition server_bind (address : string * Z) : M unit := socket_bind address.

(** [server_activate]: [socket.listen]. *)
Definition server_activate : M unit := modify (set_sock Listening).

Definition address_eqb (a b : string * Z) : bool :=
  (fst a =? fst b) && Z.eqb (snd a) (snd b).

Fixpoint release (address : string * Z) (bound : list (string * Z))
    : list (string * Z) :=
  match bound with
  | [] => []
  | a :: rest => if address_eqb a address then rest else a :: release address rest
  end.

(** [server_close]: [socket.close], which frees the address the
    socket was bound to. *)
Definition server_close (address : string * Z) : M unit :=
  fun w =>
    match sock w with
    | Bound | Listening =>
        (Returned tt,
         set_sock Closed (set_bound (release address (bound_addresses w)) w))
    | _ => (Returned tt, set_sock Closed w)
    end.

(** [TCPServer(address, handler)]: the constructor binds and
    activates; should either fail, the socket is closed and the
    exception raised again. *)
Definition TCPServer (address : string * Z) : M unit :=
  modify (set_is_shut_down false) ;;
  modify (set_shutdown_request false) ;;
  modify (set_sock Created) ;;
  (fun w =>
     match (server_bind address ;; server_activate) w with
     | (Raised e, w') =>
         match server_close address w' with
         | (Returned _, w'') => (Raised e, w'')
         | other => other
         end
     | other => other
     end).

Definition handler : Type :=
  Os.node -> list string -> HttpServer.request -> result HttpServer.response.

(** [_handle_request_noblock]: the handler runs to its end on the
    accepted connection; an [Exception] it raises is reported on
    stderr and the connection closed, anything else is raised again. *)
Definition handle_request_noblock (h : handler) (r : HttpServer.request) : M unit :=
  fun w =>
    match h (disk w) (cwd w) r with
    | Returned resp => (Returned tt, add_exchange (r, Answered resp) w)
    | Raised e =>
        if is_Exception e then (Returned tt, add_exchange (r, Dropped e) w)
        else (Raised e, w)
    | Blocked b => (Blocked b, w)
    end.

(** The loop of [serve_forever]: [select] returns when a connection
    is ready, is interrupted by the signal, or waits without end. *)
Fixpoint serve_loop (h : handler) (arr : list arrival) : M unit :=
  fun w =>
    if shutdown_request w then (Returned tt, w)
    else
      match arr with
      | [] => (Blocked InSelect, w)
      | Sigint :: _ => (Raised KeyboardInterrupt, w)
      | Connection r :: rest =>
          (handle_request_noblock h r ;; serve_loop h rest) w
      end.

(** [serve_forever]. *)
Definition serve_forever (h : handler) (arr : list arrival) : M unit :=
  modify (set_is_shut_down false) ;;
  try_finally (serve_loop h arr)
              (modify (set_shutdown_request false) ;;
               modify (set_is_shut_down true)).

(** [shutdown]: asks the loop to stop and waits for it to have
    stopped. *)
Definition shutdown : M unit :=
  modify (set_shutdown_request true) ;;
  (fun w => if is_shut_down w then (Returned tt, w) else (Blocked InEventWait, w)).

(** [with server: body] -- [__enter__] returns the server and
    [__exit__] calls [server_close], letting an exception through. *)
Definition with_server {A : Type} (address : string * Z) (body : M A) : M A :=
  try_finally body (server_close address).

End SocketServer.

(** ** The script: [docs/serve_docs.py] *)

Module ServeDocs.

Definition PORT : Z := 8088.

(** [DIRECTORY = Path(__file__).parent]. *)
Definition DIRECTORY (env : environment) : Pathlib.PurePath :=
  Pathlib.parent (Pathlib.Path (script env)).

(** [class Handler(SimpleHTTPRequestHandler)], whose constructor
    passes [directory=str(DIRECTORY)]. *)
Definition Handler (env : environment) : SocketServer.handler :=
  fun disk cwd req =>
    HttpServer.handle_one_request (mimetypes env) disk cwd
      (Pathlib.str (DIRECTORY env)) req.

(** [f"{PORT}"]. *)
Definition str_of_Z (z : Z) : string := NilZero.string_of_int (Z.to_int z).

(** [f"http://localhost:{PORT}/swagger.html"]. *)
Definition url : string := "http://localhost:" ++ str_of_Z PORT ++ "/swagger.html".

(** [main]. *)
Definition main (env : environment) : M unit :=
  interruptible env InConstructor (SocketServer.TCPServer ("", PORT)) ;;
  SocketServer.with_server ("", PORT)
    (interruptible env InPrint (print ("Serving documentation at " ++ url)) ;;
     interruptible env InBrowserOpen (Webbrowser.open env url) ;;
     try_except
       (SocketServer.serve_forever (Handler env) (arrivals env))
       KeyboardInterrupt
       (print (String "010" "Shutting down server...") ;;
        SocketServer.shutdown)).

(** How the process ends: the interpreter exits with 0 when [main]
    returns; an uncaught exception prints its traceback and gives 1,
    and an uncaught [KeyboardInterrupt] ends the process through
    [SIGINT], which a shell reports as 130. *)
Inductive termination : Type :=
| Exited (status : Z) (traceback : option exn)
| StillRunning (w : wait).

Definition exit_status (e : exn) : Z :=
  match e with
  | KeyboardInterrupt => 130
  | OSError | ValueError => 1
  end.

(** [if __name__ == "__main__": main()]. *)
Definition run (env : environment) (w : world) : termination * world :=
  match main env w with
  | (Returned _, w') => (Exited 0 None, w')
  | (Raised e, w') => (Exited (exit_status e) (Some e), w')
  | (Blocked b, w') => (StillRunning b, w')
  end.

(** A process about to start the script on a host. *)
Definition fresh (d : Os.node) (cwd : list string) (bound : list (string * Z))
    : world :=
  mkWorld d cwd bound NoSocket false false [] [] [].

(** A second process started on the host as another left it. *)
Definition spawn (w : world) : world :=
  fresh (disk w) (cwd w) (bound_addresses w).

(** The states of the specification's state machine, read off the
    listening socket and the period of the accept loop. *)
Inductive server_state : Type :=
| StCreated
| StListening
| StStopped.

Definition state_of (w : world) : option server_state :=
  match sock w with
  | NoSocket => None
  | Created | Bound => Some StCreated
  | Listening => Some StListening
  | Closed => Some StStopped
  end.

End ServeDocs.

(** ** Vocabulary of the statements *)



(** A call that returns, or raises [ValueError]; it neither blocks nor
    raises anything else. *)
Definition benign {A : Type} (r : result A) : Prop :=
  (exists a, r = Returned a) \/ r = Raised ValueError.


(** Some socket of the host is bound to the port. *)
Definition port_in_use (port : Z) (w : world) : bool :=
  existsb (fun a => Z.eqb (snd a) port) (bound_addresses w).

(** The exchange [x] is what handler [h] makes of request [r]. *)
Definition reply_matches (h : SocketServer.handler) (d : Os.node) (cwd : list string)
    (r : HttpServer.request) (x : HttpServer.request * reply) : Prop :=
  fst x = r
  /\ match snd x with
     | Answered resp => h d cwd r = Returned resp
     | Dropped e => h d cwd r = Raised e
     end.

(** From [w] to [w'] the requests [reqs] were handled, in order, and
    nothing else was. *)
Definition served (h : SocketServer.handler) (reqs : list HttpServer.request)
    (w w' : world) : Prop :=
  exists xs, exchanges w' = (exchanges w ++ xs)%list
             /\ Forall2 (reply_matches h (disk w) (cwd w)) reqs xs.

Definition set_arrivals (arr : list arrival) (env : environment) : environment :=
  mkEnv (script env) (mimetypes env) (browsers env) (startup_signal env) arr.

Definition set_exchanges (xs : list (HttpServer.request * reply)) (w : world) : world :=
  mkWorld (disk w) (cwd w) (bound_addresses w) (sock w) (shutdown_request w)
          (is_shut_down w) (stdout w) (browser_launches w) xs.

Definition GET (target : string) : HttpServer.request :=
  HttpServer.mkRequest "GET" target.

Definition HEAD (target : string) : HttpServer.request :=
  HttpServer.mkRequest "HEAD" target.

Definition banner : string := "Serving documentation at " ++ ServeDocs.url.

Definition farewell : string := String "010" "Shutting down server...".

(** The world once the constructor of the server has returned. *)
Definition constructed (w : world) : world :=
  mkWorld (disk w) (cwd w) (("", ServeDocs.PORT) :: bound_addresses w) Listening
          false false (stdout w) (browser_launches w) (exchanges w).

(** The world when the accept loop is entered: the banner is printed
    and the browser, if one could be launched, shows the page. *)
Definition ready (env : environment) (w : world) : world :=
  let w1 := add_stdout banner (constructed w) in
  if existsb (fun launched => launched) (browsers env)
  then add_launch ServeDocs.url w1 else w1.

(** The world after the clean shutdown. *)
Definition stopped (w : world) : world :=
  mkWorld (disk w) (cwd w)
          (SocketServer.release ("", ServeDocs.PORT) (bound_addresses w))
          Closed true true (stdout w ++ [farewell])%list (browser_launches w)
          (exchanges w).




(** The characters [quote] produces. *)
Definition quoted_char (c : ascii) : bool :=
  UrlParse.always_safe c || Ascii.eqb c "/" || Ascii.eqb c "%".

Fixpoint all_chars (P : ascii -> bool) (s : string) : bool :=
  match s with
  | EmptyString => true
  | String c s' => P c && all_chars P s'
  end.

Definition plain (n : string) : Prop := Os.plain_name n = true.

(** The parts [pathlib] keeps of a path. *)
Definition kept_part (x : string) : bool := negb (x =? "") && negb (x =? ".").

(** The request target of a file: its relative path, percent-encoded,
    after a slash. *)
Definition target_of (names : list string) : string :=
  String "/" (UrlParse.quote (Str.join "/" names)).

(** ** A concrete host *)

Module Scenario.

Definition page : list byte := list_byte_of_string "<html>OK</html>".

(** [/srv/docs] holds the script and the documentation; one file
    there is unreadable, and a file lies outside, next to it. *)
Definition disk : Os.node :=
  Os.Dir true
    [("srv",
      Os.Dir true
        [("docs",
          Os.Dir true
            [("swagger.html", Os.File true page);
             ("draft.html", Os.File false page);
             ("serve_docs.py", Os.File true [])]);
         ("swagger.html", Os.File true (list_byte_of_string "outside"))])].

Definition mime_table (path : string) : option string :=
  if PosixPath.splitext_ext path =? ".html" then Some "text/html" else None.

Definition env (arr : list arrival) : environment :=
  mkEnv "/srv/docs/serve_docs.py" mime_table [] None arr.

(** The same host with the script's directory gone. *)
Definition env_gone (arr : list arrival) : environment :=
  mkEnv "/opt/docs/serve_docs.py" mime_table [] None arr.

Definition host : world := ServeDocs.fresh disk [] [].

(** The answer to a request for [/swagger.html]. *)
Definition swagger_response : HttpServer.response :=
  {| HttpServer.status := 200;
     HttpServer.headers := [("Content-type", "text/html"); ("Content-Length", "15")];
     HttpServer.payload := HttpServer.FileContent page |}.

(** The script started with an interrupt signal due while the
    browser is opened. *)
Definition env_interrupted : environment :=
  mkEnv "/srv/docs/serve_docs.py" mime_table [] (Some InBrowserOpen) [Sigint].

End Scenario.

(** ** Vocabulary of the further properties *)

(** A response with its body left out. *)
Definition without_body (r : HttpServer.response) : HttpServer.response :=
  {| HttpServer.status := HttpServer.status r;
     HttpServer.headers := HttpServer.headers r;
     HttpServer.payload := HttpServer.NoBody |}.

Definition map_result {A B : Type} (f : A -> B) (r : result A) : result B :=
  match r with
  | Returned a => Returned (f a)
  | Raised e => Raised e
  | Blocked w => Blocked w
  end.

(** The local path of the entry of the served directory reached by
    [names]. *)
Definition local_path (directory : string) (names : list string) : string :=
  fold_left PosixPath.join names directory.

Definition head_of_pair (x : HttpServer.response * option HttpServer.body)
    : HttpServer.response * option HttpServer.body :=
  (without_body (fst x), snd x).

(** An entry of a directory is a regular file. *)
Definition is_file_entry (entries : list (string * Os.node)) (name : string) : bool :=
  match Os.child name entries with
  | Some (Os.File _ _) => true
  | _ => false
  end.

(** The index page of a directory, if it has one: the first of
    [index.html] and [index.htm] that is a regular file. *)
Definition index_of (entries : list (string * Os.node)) : option string :=
  find (is_file_entry entries) HttpServer.index_pages.

(** The request target of a directory: the one of its relative path,
    closed by a slash; the served directory itself is [/]. *)
Definition dir_target_of (names : list string) : string :=
  match names with
  | [] => "/"
  | _ :: _ => target_of names ++ "/"
  end.





(** ** A host with a documentation tree *)

Module Site.

Definition guide : list byte := list_byte_of_string "<h1>Guide</h1>".

(** [/srv/docs] holds the script, a page, a directory [guide] with an
    index page, a directory [api] without one and a directory
    [private] that cannot be listed. *)
Definition disk : Os.node :=
  Os.Dir true
    [("srv",
      Os.Dir true
        [("docs",
          Os.Dir true
            [("swagger.html", Os.File true Scenario.page);
             ("serve_docs.py", Os.File true (list_byte_of_string "#!/usr/bin/env python3"));
             ("guide", Os.Dir true [("index.html", Os.File true guide)]);
             ("api", Os.Dir true [("v1.json", Os.File true []);
                                  ("v2.json", Os.File true [])]);
             ("private", Os.Dir false [("key.pem", Os.File true [])])])])].

Definition host : world := ServeDocs.fresh disk [] [].

End Site.

(** * Properties *)

(** * Facts about the [str] methods *)

Lemma split_nonempty (c : ascii) (s : string) : Str.split c s <> [].
Proof.
  destruct s as [|a s]; simpl; [discriminate|].
  destruct (Ascii.eqb a c); [discriminate|].
  destruct (Str.split c s); discriminate.
Qed.

Lemma split_no_sep (c : ascii) (s w : string) :
  In w (Str.split c s) -> Str.contains w c = false.
Proof.
  revert w. induction s as [|a s IH]; simpl; intros w H.
  - destruct H as [<-|[]]. reflexivity.
  - destruct (Ascii.eqb a c) eqn:E.
    + destruct H as [<-|H]; [reflexivity|auto].
    + destruct (Str.split c s) as [|x xs] eqn:S.
      * destruct H as [<-|[]]. simpl. rewrite E. reflexivity.
      * destruct H as [<-|H].
        -- simpl. rewrite E. apply IH. left. reflexivity.
        -- apply IH. right. exact H.
Qed.

Lemma split_without_sep (c : ascii) (w : string) :
  Str.contains w c = false -> Str.split c w = [w].
Proof.
  induction w as [|a w IH]; simpl; intros H; [reflexivity|].
  apply orb_false_iff in H. destruct H as [E H].
  rewrite E, (IH H). reflexivity.
Qed.

Lemma split_app_sep (c : ascii) (a b : string) :
  Str.split c (a ++ String c b) = (Str.split c a ++ Str.split c b)%list.
Proof.
  induction a as [|x a IH]; simpl.
  - rewrite Ascii.eqb_refl. reflexivity.
  - destruct (Ascii.eqb x c); rewrite IH; [reflexivity|].
    destruct (Str.split c a) as [|w ws] eqn:S; [|reflexivity].
    exfalso. exact (split_nonempty c a S).
Qed.

Lemma contains_app (c : ascii) (a b : string) :
  Str.contains (a ++ b) c = Str.contains a c || Str.contains b c.
Proof.
  induction a as [|x a IH]; simpl; [reflexivity|].
  rewrite IH, orb_assoc. reflexivity.
Qed.

Lemma endswith_inv (c : ascii) (s : string) :
  Str.endswith s c = true -> exists q, s = q ++ String c "".
Proof.
  induction s as [|a s IH]; simpl; [discriminate|].
  destruct s as [|b s'].
  - intros H. apply Ascii.eqb_eq in H. subst a. exists "". reflexivity.
  - intros H. destruct (IH H) as [q Hq]. exists (String a q). simpl. rewrite Hq. reflexivity.
Qed.

Lemma endswith_app_nonempty (c : ascii) (a b : string) :
  b <> "" -> Str.endswith (a ++ b) c = Str.endswith b c.
Proof.
  intros Hb. induction a as [|x a IH]; simpl; [reflexivity|].
  destruct (a ++ b) eqn:E.
  - destruct a; destruct b; simpl in E; congruence.
  - exact IH.
Qed.

Lemma startswith_cons (c : ascii) (s : string) (x : ascii) :
  Str.startswith (String x s) (String c "") = Ascii.eqb c x.
Proof.
  unfold Str.startswith. simpl.
  destruct (Ascii.ascii_dec c x) as [->|N].
  - rewrite Ascii.eqb_refl. destruct s; reflexivity.
  - apply Ascii.eqb_neq in N. rewrite N. reflexivity.
Qed.


Lemma append_assoc (a b c : string) : (a ++ b) ++ c = a ++ (b ++ c).
Proof. induction a; simpl; congruence. Qed.

(** * Facts about the file system walk *)

Lemma plain_name_inv (w : string) :
  Os.plain_name w = true ->
  w <> "" /\ Str.contains w "/" = false /\ w <> "." /\ w <> "..".
Proof.
  unfold Os.plain_name. intros H.
  repeat (apply andb_true_iff in H; destruct H as [H ?]).
  repeat match goal with
         | X : negb _ = true |- _ => apply negb_true_iff in X
         end.
  repeat split; try assumption; intros ->; discriminate.
Qed.

Lemma plain_name_eqb (w : string) :
  Os.plain_name w = true ->
  (w =? "") = false /\ (w =? ".") = false /\ (w =? "..") = false.
Proof.
  unfold Os.plain_name. intros H.
  repeat (apply andb_true_iff in H; destruct H as [H ?]).
  repeat match goal with
         | X : negb _ = true |- _ => apply negb_true_iff in X
         end.
  auto.
Qed.

Lemma plain_name_no_leading_slash (w : string) :
  Os.plain_name w = true -> Str.startswith w "/" = false.
Proof.
  intros H. destruct (plain_name_inv w H) as (Hne & Hc & _).
  destruct w as [|a w]; [congruence|].
  rewrite startswith_cons. simpl in Hc.
  apply orb_false_iff in Hc. destruct Hc as [Hc _].
  rewrite Ascii.eqb_sym. exact Hc.
Qed.

Lemma walk_step_none (d : Os.node) (comps : list string) :
  fold_left (Os.walk_step d) comps None = None.
Proof. induction comps; simpl; auto. Qed.

Lemma walk_step_plain (d : Os.node) (l loc : list string) (w : string) :
  Os.plain_name w = true ->
  Os.walk_step d (Some l) w = Some loc ->
  loc = (l ++ [w])%list /\ Os.is_dir_at d l = true.
Proof.
  intros Hw. destruct (plain_name_eqb w Hw) as (E1 & E2 & E3).
  unfold Os.walk_step. destruct (Os.is_dir_at d l); [|discriminate].
  rewrite E1, E2, E3. simpl.
  destruct (Os.lookup d (l ++ [w])); [|discriminate].
  intros H. inversion H. auto.
Qed.

Lemma walk_step_stay (d : Os.node) (l : list string) :
  Os.is_dir_at d l = true -> Os.walk_step d (Some l) "" = Some l.
Proof. intros H. unfold Os.walk_step. rewrite H. reflexivity. Qed.

Lemma startswith_app (p x : string) (c : ascii) :
  p <> "" ->
  Str.startswith (p ++ x) (String c "") = Str.startswith p (String c "").
Proof.
  destruct p as [|a p]; [congruence|]. intros _.
  change (String a p ++ x) with (String a (p ++ x)).
  rewrite !startswith_cons. reflexivity.
Qed.

Lemma append_eq_empty (a b : string) : a ++ b = "" -> a = "" /\ b = "".
Proof. destruct a; simpl; [auto|discriminate]. Qed.

Lemma eqb_empty_false (s : string) : s <> "" -> (s =? "") = false.
Proof. intros H. apply String.eqb_neq. exact H. Qed.

(** Appending a final slash to a path that resolves changes nothing;
    conversely a path with a final slash resolves only where the path
    without it does. *)
Lemma namei_trailing_slash (d : Os.node) (cwd : list string) (p : string) (loc : list string) :
  p <> "" ->
  Os.namei d cwd (p ++ "/") = Some loc ->
  Os.namei d cwd p = Some loc.
Proof.
  intros Hp. unfold Os.namei.
  rewrite (eqb_empty_false p Hp).
  destruct (p ++ "/" =? "") eqn:E.
  { apply String.eqb_eq in E. apply append_eq_empty in E. destruct E; congruence. }
  rewrite (startswith_app p "/" "/" Hp).
  change (p ++ "/") with (p ++ String "/" "").
  rewrite split_app_sep, fold_left_app. simpl.
  destruct (fold_left (Os.walk_step d) (Str.split "/" p) _) as [l|]; [|discriminate].
  unfold Os.walk_step. destruct (Os.is_dir_at d l); [|discriminate].
  simpl. auto.
Qed.

(** Joining one plain name to a path: the result resolves only under
    the location of the path. *)
Lemma namei_join (d : Os.node) (cwd : list string) (p w : string) (loc : list string) :
  p <> "" ->
  Os.plain_name w = true ->
  Os.namei d cwd (PosixPath.join p w) = Some loc ->
  exists l0, Os.namei d cwd p = Some l0 /\ loc = (l0 ++ [w])%list.
Proof.
  intros Hp Hw. destruct (plain_name_inv w Hw) as (Hne & Hc & _).
  unfold PosixPath.join. rewrite (plain_name_no_leading_slash w Hw).
  rewrite (eqb_empty_false p Hp). simpl.
  destruct (Str.endswith p PosixPath.sep) eqn:E.
  - destruct (endswith_inv _ _ E) as [q Hq]. subst p.
    rewrite append_assoc. simpl.
    unfold Os.namei.
    destruct (q ++ String PosixPath.sep w =? "") eqn:E1.
    { apply String.eqb_eq in E1. apply append_eq_empty in E1. destruct E1; discriminate. }
    rewrite (eqb_empty_false _ Hp).
    assert (Hs : forall x, Str.startswith (q ++ String PosixPath.sep x) "/" =
                           Str.startswith (q ++ String PosixPath.sep "") "/").
    { intros x. destruct q; cbn [append]; rewrite !startswith_cons; reflexivity. }
    rewrite (Hs w). clear Hs.
    unfold PosixPath.sep.
    rewrite !split_app_sep, !fold_left_app.
    rewrite (split_without_sep _ w Hc). simpl.
    destruct (fold_left (Os.walk_step d) (Str.split "/" q) _) as [l|] eqn:F;
      [|discriminate].
    intros H. destruct (walk_step_plain d l loc w Hw H) as [-> Hd].
    exists l. split; [|reflexivity].
    apply walk_step_stay. exact Hd.
  - change (p ++ "/" ++ w) with (p ++ String "/" w).
    unfold Os.namei.
    destruct (p ++ String "/" w =? "") eqn:E1.
    { apply String.eqb_eq in E1. apply append_eq_empty in E1. destruct E1; congruence. }
    rewrite (eqb_empty_false _ Hp).
    rewrite (startswith_app p _ "/" Hp).
    rewrite split_app_sep, fold_left_app.
    rewrite (split_without_sep _ w Hc). simpl.
    destruct (fold_left (Os.walk_step d) (Str.split "/" p) _) as [l|] eqn:F;
      [|simpl; discriminate].
    intros H. destruct (walk_step_plain d l loc w Hw H) as [-> Hd].
    exists l. auto.
Qed.

Lemma join_nonempty (p w : string) : p <> "" -> PosixPath.join p w <> "".
Proof.
  intros Hp. unfold PosixPath.join.
  destruct (Str.startswith w "/") eqn:E.
  - destruct w; [discriminate|discriminate].
  - destruct ((p =? "") || Str.endswith p PosixPath.sep);
      intros H; apply append_eq_empty in H; destruct H; congruence.
Qed.

(** * Confinement of [translate_path] *)

Lemma fold_left_skip {A B : Type} (f : A -> B -> A) (skip : B -> bool)
    (l : list B) (a : A) :
  fold_left (fun acc x => if skip x then acc else f acc x) l a =
  fold_left f (filter (fun x => negb (skip x)) l) a.
Proof.
  revert a. induction l as [|x l IH]; intros a; simpl; [reflexivity|].
  destruct (skip x); simpl; apply IH.
Qed.

Lemma translate_path_words (directory target : string) :
  HttpServer.translate_path directory target =
  let p := fold_left PosixPath.join (HttpServer.requested_words target) directory in
  if HttpServer.trailing_slash target then p ++ "/" else p.
Proof.
  unfold HttpServer.translate_path, HttpServer.requested_words,
    HttpServer.trailing_slash, HttpServer.ignored_word.
  cbv zeta. rewrite fold_left_skip. reflexivity.
Qed.

Lemma requested_words_plain (target : string) :
  Forall (fun w => Os.plain_name w = true) (HttpServer.requested_words target).
Proof.
  unfold HttpServer.requested_words. cbv zeta.
  apply Forall_forall. intros w Hw.
  apply filter_In in Hw. destruct Hw as [Hw Hi].
  apply filter_In in Hw. destruct Hw as [Hw Hne].
  apply split_no_sep in Hw.
  unfold HttpServer.ignored_word in Hi.
  apply negb_true_iff in Hi.
  apply orb_false_iff in Hi. destruct Hi as [Hi Hpar].
  apply orb_false_iff in Hi. destruct Hi as [_ Hcur].
  unfold Os.plain_name. rewrite Hne, Hw.
  unfold PosixPath.curdir in Hcur. unfold PosixPath.pardir in Hpar.
  rewrite Hcur, Hpar. reflexivity.
Qed.

Lemma fold_join_nonempty (ws : list string) (p : string) :
  p <> "" -> fold_left PosixPath.join ws p <> "".
Proof.
  revert p. induction ws as [|w ws IH]; intros p Hp; simpl; [exact Hp|].
  apply IH. apply join_nonempty. exact Hp.
Qed.

Lemma namei_fold_join (d : Os.node) (cwd : list string) (ws : list string) :
  Forall (fun w => Os.plain_name w = true) ws ->
  forall (p : string) (loc : list string),
    p <> "" ->
    Os.namei d cwd (fold_left PosixPath.join ws p) = Some loc ->
    exists l0, Os.namei d cwd p = Some l0 /\ loc = (l0 ++ ws)%list.
Proof.
  induction 1 as [|w ws Hw _ IH]; intros p loc Hp H; simpl in H.
  - exists loc. rewrite app_nil_r. auto.
  - destruct (IH _ _ (join_nonempty p w Hp) H) as (l1 & H1 & ->).
    destruct (namei_join d cwd p w l1 Hp Hw H1) as (l0 & H0 & ->).
    exists l0. rewrite <- app_assoc. auto.
Qed.


(** Whatever the request target, the translated path resolves only to
    a location under the one the directory resolves to. *)
Lemma namei_translate_path (d : Os.node) (cwd : list string)
    (directory target : string) (loc : list string) :
  directory <> "" ->
  Os.namei d cwd (HttpServer.translate_path directory target) = Some loc ->
  exists rootloc,
    Os.namei d cwd directory = Some rootloc
    /\ loc = (rootloc ++ HttpServer.requested_words target)%list.
Proof.
  intros Hd. rewrite translate_path_words. cbv zeta.
  pose proof (fold_join_nonempty (HttpServer.requested_words target) directory Hd) as Hne.
  intros H.
  assert (H' : Os.namei d cwd
                 (fold_left PosixPath.join (HttpServer.requested_words target) directory)
               = Some loc).
  { destruct (HttpServer.trailing_slash target); [|exact H].
    apply namei_trailing_slash; assumption. }
  exact (namei_fold_join d cwd _ (requested_words_plain target) directory loc Hd H').
Qed.

(** * The outcomes of the [os] calls *)


Lemma stat_not_blocked (d : Os.node) (cwd : list string) (p : string) (b : wait) :
  Os.stat d cwd p <> Blocked b.
Proof.
  unfold Os.stat. destruct (Os.has_nul p); [discriminate|].
  destruct (Os.namei d cwd p) as [loc|]; [|discriminate].
  destruct (Os.lookup d loc); discriminate.
Qed.

Lemma stat_raises (d : Os.node) (cwd : list string) (p : string) (e : exn) :
  Os.stat d cwd p = Raised e -> e = OSError \/ e = ValueError.
Proof.
  unfold Os.stat. destruct (Os.has_nul p); [intros H; inversion H; auto|].
  destruct (Os.namei d cwd p) as [loc|]; [|intros H; inversion H; auto].
  destruct (Os.lookup d loc); [discriminate|intros H; inversion H; auto].
Qed.



(** * Confinement of the responses *)

Section Confinement.

Variable mime : string -> option string.
Variable d : Os.node.
Variable cwd : list string.
Variable directory : string.
Hypothesis directory_nonempty : directory <> "".





End Confinement.

(** * The handler never blocks and raises nothing but [ValueError] *)


Lemma open_rb_outcome (d : Os.node) (cwd : list string) (p : string) :
  (exists c, Os.open_rb d cwd p = Returned c)
  \/ Os.open_rb d cwd p = Raised OSError
  \/ Os.open_rb d cwd p = Raised ValueError.
Proof.
  unfold Os.open_rb. destruct (Os.stat d cwd p) as [x|e|b] eqn:S.
  - destruct x as [[] c|r entries]; eauto.
  - destruct (stat_raises _ _ _ _ S); subst; auto.
  - exfalso. exact (stat_not_blocked _ _ _ _ S).
Qed.

Lemma listdir_outcome (d : Os.node) (cwd : list string) (p : string) :
  (exists c, Os.listdir d cwd p = Returned c)
  \/ Os.listdir d cwd p = Raised OSError
  \/ Os.listdir d cwd p = Raised ValueError.
Proof.
  unfold Os.listdir. destruct (Os.stat d cwd p) as [x|e|b] eqn:S.
  - destruct x as [r c|[] entries]; eauto.
  - destruct (stat_raises _ _ _ _ S); subst; auto.
  - exfalso. exact (stat_not_blocked _ _ _ _ S).
Qed.

Section Outcomes.

Variable mime : string -> option string.
Variable d : Os.node.
Variable cwd : list string.
Variable directory : string.

Lemma send_file_benign (cmd p : string) :
  benign (HttpServer.send_file mime d cwd cmd p).
Proof.
  unfold benign, HttpServer.send_file.
  destruct (Str.endswith p "/"); [eauto|].
  destruct (open_rb_outcome d cwd p) as [[c ->]|[->| ->]]; eauto.
Qed.

Lemma list_directory_benign (cmd p : string) :
  benign (HttpServer.list_directory d cwd cmd p).
Proof.
  unfold benign, HttpServer.list_directory.
  destruct (listdir_outcome d cwd p) as [[c ->]|[->| ->]]; eauto.
Qed.

Lemma send_head_benign (req : HttpServer.request) :
  benign (HttpServer.send_head mime d cwd directory req).
Proof.
  unfold HttpServer.send_head.
  destruct (Os.isdir d cwd _).
  - destruct (negb _); [left; eauto|].
    destruct (find _ _); [apply send_file_benign|apply list_directory_benign].
  - apply send_file_benign.
Qed.

Lemma do_GET_benign (req : HttpServer.request) :
  benign (HttpServer.do_GET mime d cwd directory req).
Proof.
  unfold HttpServer.do_GET.
  destruct (send_head_benign req) as [[[head [f|]] ->]| ->];
    unfold benign; eauto.
Qed.

Lemma do_HEAD_benign (req : HttpServer.request) :
  benign (HttpServer.do_HEAD mime d cwd directory req).
Proof.
  unfold HttpServer.do_HEAD.
  destruct (send_head_benign req) as [[[head f] ->]| ->];
    unfold benign; eauto.
Qed.

(** The dispatch on the method name. *)
Lemma dispatch_cases (cmd : string) :
  (cmd = "GET"
   /\ HttpServer.assoc ("do_" ++ cmd) (HttpServer.methods mime d cwd directory)
      = Some (HttpServer.do_GET mime d cwd directory))
  \/ (cmd = "HEAD"
      /\ HttpServer.assoc ("do_" ++ cmd) (HttpServer.methods mime d cwd directory)
         = Some (HttpServer.do_HEAD mime d cwd directory))
  \/ (cmd <> "GET" /\ cmd <> "HEAD"
      /\ HttpServer.assoc ("do_" ++ cmd) (HttpServer.methods mime d cwd directory)
         = None).
Proof.
  unfold HttpServer.methods. cbn [HttpServer.assoc].
  destruct (String.eqb_spec "do_GET" ("do_" ++ cmd)) as [E|N].
  - left. split; [|reflexivity]. simpl in E. congruence.
  - destruct (String.eqb_spec "do_HEAD" ("do_" ++ cmd)) as [E'|N'].
    + right. left. split; [|reflexivity]. simpl in E'. congruence.
    + right. right. repeat split; try reflexivity; intros ->; simpl in *; congruence.
Qed.

Lemma handle_one_request_benign (req : HttpServer.request) :
  benign (HttpServer.handle_one_request mime d cwd directory req).
Proof.
  unfold HttpServer.handle_one_request. cbv zeta.
  set (req' := HttpServer.mkRequest _ _).
  destruct (dispatch_cases (HttpServer.command req')) as [[_ ->]|[[_ ->]|(_ & _ & ->)]].
  - apply do_GET_benign.
  - apply do_HEAD_benign.
  - left. eauto.
Qed.

End Outcomes.

Lemma Handler_benign (env : environment) (d : Os.node) (cwd : list string)
    (req : HttpServer.request) :
  benign (ServeDocs.Handler env d cwd req).
Proof. apply handle_one_request_benign. Qed.

Lemma pathlib_str_nonempty (p : Pathlib.PurePath) : Pathlib.str p <> "".
Proof.
  unfold Pathlib.str. cbv zeta.
  destruct (String.eqb_spec (Pathlib.root p ++ Str.join "/" (Pathlib.parts p)) "");
    [discriminate|assumption].
Qed.





(** * The accept loop *)

Lemma add_exchange_set (x : HttpServer.request * reply) (w : world) :
  add_exchange x w = set_exchanges (exchanges w ++ [x]) w.
Proof. reflexivity. Qed.

Lemma set_exchanges_same (w : world) : set_exchanges (exchanges w) w = w.
Proof. destruct w; reflexivity. Qed.

Lemma set_exchanges_twice (xs ys : list (HttpServer.request * reply)) (w : world) :
  set_exchanges ys (set_exchanges xs w) = set_exchanges ys w.
Proof. reflexivity. Qed.

(** One connection: the handler's reply is recorded, and the loop goes
    on whatever the handler did. *)
Lemma handle_request_noblock_benign (h : SocketServer.handler)
    (r : HttpServer.request) (w : world) :
  benign (h (disk w) (cwd w) r) ->
  exists x, SocketServer.handle_request_noblock h r w
            = (Returned tt, set_exchanges (exchanges w ++ [x]) w)
            /\ reply_matches h (disk w) (cwd w) r x.
Proof.
  unfold SocketServer.handle_request_noblock.
  intros [[resp E]|E]; rewrite E.
  - exists (r, Answered resp). split; [reflexivity|]. split; [reflexivity|exact E].
  - exists (r, Dropped ValueError). split; [reflexivity|]. split; [reflexivity|exact E].
Qed.

(** The connections that precede [arr] are handled in order, and the
    loop is then where it would be had it started with [arr]. *)
Lemma serve_loop_connections (h : SocketServer.handler)
    (Hh : forall d cwd r, benign (h d cwd r))
    (reqs : list HttpServer.request) (arr : list arrival) (w : world) :
  shutdown_request w = false ->
  exists xs,
    SocketServer.serve_loop h (map Connection reqs ++ arr) w
    = SocketServer.serve_loop h arr (set_exchanges (exchanges w ++ xs) w)
    /\ Forall2 (reply_matches h (disk w) (cwd w)) reqs xs.
Proof.
  revert w. induction reqs as [|r reqs IH]; intros w Hs.
  - exists []. rewrite app_nil_r, set_exchanges_same. split; [reflexivity|constructor].
  - destruct (handle_request_noblock_benign h r w (Hh _ _ _)) as (x & Hx & Hm).
    set (w1 := set_exchanges (exchanges w ++ [x]) w) in *.
    destruct (IH w1 Hs) as (xs & Hxs & Hall).
    exists (x :: xs). split.
    + cbn [map app SocketServer.serve_loop]. rewrite Hs.
      unfold bind. rewrite Hx, Hxs.
      unfold w1. rewrite set_exchanges_twice. cbn [exchanges set_exchanges].
      rewrite <- app_assoc. reflexivity.
    + constructor; assumption.
Qed.

Lemma port_in_use_clashes (port : Z) (w : world) :
  existsb (SocketServer.clashes ("", port)) (bound_addresses w) = port_in_use port w.
Proof.
  unfold port_in_use. induction (bound_addresses w) as [|a l IH]; simpl; [reflexivity|].
  rewrite IH. unfold SocketServer.clashes. simpl.
  rewrite andb_true_r, Z.eqb_sym. reflexivity.
Qed.

Lemma TCPServer_free (w : world) :
  port_in_use ServeDocs.PORT w = false ->
  SocketServer.TCPServer ("", ServeDocs.PORT) w = (Returned tt, constructed w).
Proof.
  intros H. unfold SocketServer.TCPServer, bind, modify.
  unfold SocketServer.server_bind, SocketServer.socket_bind.
  cbn [bound_addresses set_sock set_shutdown_request set_is_shut_down].
  rewrite <- port_in_use_clashes in H.
  simpl in *. rewrite H. reflexivity.
Qed.

Lemma TCPServer_busy (w : world) :
  port_in_use ServeDocs.PORT w = true ->
  SocketServer.TCPServer ("", ServeDocs.PORT) w
  = (Raised OSError,
     mkWorld (disk w) (cwd w) (bound_addresses w) Closed false false
             (stdout w) (browser_launches w) (exchanges w)).
Proof.
  intros H. unfold SocketServer.TCPServer, bind, modify.
  unfold SocketServer.server_bind, SocketServer.socket_bind.
  cbn [bound_addresses set_sock set_shutdown_request set_is_shut_down].
  rewrite <- port_in_use_clashes in H.
  simpl in *. rewrite H. reflexivity.
Qed.

Section ServeForever.

Variable h : SocketServer.handler.
Hypothesis h_benign : forall d cwd r, benign (h d cwd r).

(** With connections only, [serve_forever] answers them and waits. *)
Lemma serve_forever_idle (reqs : list HttpServer.request) (w : world) :
  shutdown_request w = false ->
  exists xs,
    SocketServer.serve_forever h (map Connection reqs) w
    = (Blocked InSelect,
       set_exchanges (exchanges w ++ xs) (set_is_shut_down false w))
    /\ Forall2 (reply_matches h (disk w) (cwd w)) reqs xs.
Proof.
  intros Hs.
  destruct (serve_loop_connections h h_benign reqs [] (set_is_shut_down false w) Hs)
    as (xs & Hxs & Hall).
  exists xs. split; [|exact Hall].
  unfold SocketServer.serve_forever, bind, modify, try_finally.
  rewrite app_nil_r in Hxs. rewrite Hxs.
  cbn [SocketServer.serve_loop shutdown_request set_exchanges set_is_shut_down].
  rewrite Hs. reflexivity.
Qed.

(** When the signal comes after some connections, [serve_forever]
    leaves through its [finally] clause with [KeyboardInterrupt]. *)
Lemma serve_forever_sigint (reqs : list HttpServer.request) (rest : list arrival)
    (w : world) :
  shutdown_request w = false ->
  exists xs,
    SocketServer.serve_forever h (map Connection reqs ++ Sigint :: rest) w
    = (Raised KeyboardInterrupt,
       set_is_shut_down true (set_exchanges (exchanges w ++ xs) w))
    /\ Forall2 (reply_matches h (disk w) (cwd w)) reqs xs.
Proof.
  intros Hs.
  destruct (serve_loop_connections h h_benign reqs (Sigint :: rest)
              (set_is_shut_down false w) Hs)
    as (xs & Hxs & Hall).
  exists xs. split; [|exact Hall].
  unfold SocketServer.serve_forever, bind, modify, try_finally.
  rewrite Hxs.
  cbn [SocketServer.serve_loop shutdown_request set_exchanges set_is_shut_down].
  rewrite Hs. destruct w; simpl in *; subst; reflexivity.
Qed.

End ServeForever.

(** * Runs of [main] *)

Lemma banner_text :
  banner = "Serving documentation at http://localhost:8088/swagger.html".
Proof. reflexivity. Qed.

(** Up to the accept loop, when no early signal comes and the port is
    free, [main] is the accept loop started in the [ready] world. *)
Lemma main_startup (env : environment) (w : world) :
  startup_signal env = None ->
  port_in_use ServeDocs.PORT w = false ->
  ServeDocs.main env w =
  SocketServer.with_server ("", ServeDocs.PORT)
    (try_except
       (SocketServer.serve_forever (ServeDocs.Handler env) (arrivals env))
       KeyboardInterrupt
       (bind (print farewell) (fun _ => SocketServer.shutdown)))
    (ready env w).
Proof.
  intros Hsig Hport. unfold ServeDocs.main, interruptible. rewrite Hsig.
  unfold bind at 1. rewrite (TCPServer_free w Hport).
  unfold SocketServer.with_server, try_finally.
  unfold bind at 1. unfold print at 1, modify at 1.
  unfold bind at 1. unfold Webbrowser.open, ready. cbv zeta.
  fold banner.
  destruct (existsb (fun launched : bool => launched) (browsers env)); reflexivity.
Qed.

Lemma ready_shutdown_request (env : environment) (w : world) :
  shutdown_request (ready env w) = false.
Proof. unfold ready. cbv zeta. destruct (existsb _ _); reflexivity. Qed.

Lemma ready_disk (env : environment) (w : world) :
  disk (ready env w) = disk w /\ cwd (ready env w) = cwd w
  /\ exchanges (ready env w) = exchanges w
  /\ stdout (ready env w) = (stdout w ++ [banner])%list
  /\ sock (ready env w) = Listening
  /\ bound_addresses (ready env w) = ("", ServeDocs.PORT) :: bound_addresses w.
Proof. unfold ready. cbv zeta. destruct (existsb _ _); repeat split; reflexivity. Qed.

(** The run with connections only: the server answers and keeps
    listening. *)
Lemma run_idle (env : environment) (w : world) (reqs : list HttpServer.request) :
  startup_signal env = None ->
  port_in_use ServeDocs.PORT w = false ->
  arrivals env = map Connection reqs ->
  exists xs,
    ServeDocs.run env w
    = (ServeDocs.StillRunning InSelect,
       set_exchanges (exchanges w ++ xs) (ready env w))
    /\ Forall2 (reply_matches (ServeDocs.Handler env) (disk w) (cwd w)) reqs xs.
Proof.
  intros Hsig Hport Harr. unfold ServeDocs.run.
  rewrite (main_startup env w Hsig Hport), Harr.
  destruct (serve_forever_idle (ServeDocs.Handler env) (Handler_benign env) reqs
              (ready env w) (ready_shutdown_request env w)) as (xs & Hxs & Hall).
  destruct (ready_disk env w) as (Hd & Hc & Hx & _).
  rewrite Hd, Hc, Hx in *.
  exists xs. split; [|exact Hall].
  unfold SocketServer.with_server, try_finally, try_except. rewrite Hxs.
  unfold ready. cbv zeta. destruct (existsb _ _); reflexivity.
Qed.

(** The run in which the signal comes during the accept loop. *)
Lemma run_sigint (env : environment) (w : world) (reqs : list HttpServer.request)
    (rest : list arrival) :
  startup_signal env = None ->
  port_in_use ServeDocs.PORT w = false ->
  arrivals env = (map Connection reqs ++ Sigint :: rest)%list ->
  exists xs,
    ServeDocs.run env w
    = (ServeDocs.Exited 0 None,
       stopped (set_exchanges (exchanges w ++ xs) (ready env w)))
    /\ Forall2 (reply_matches (ServeDocs.Handler env) (disk w) (cwd w)) reqs xs.
Proof.
  intros Hsig Hport Harr. unfold ServeDocs.run.
  rewrite (main_startup env w Hsig Hport), Harr.
  destruct (serve_forever_sigint (ServeDocs.Handler env) (Handler_benign env) reqs rest
              (ready env w) (ready_shutdown_request env w)) as (xs & Hxs & Hall).
  destruct (ready_disk env w) as (Hd & Hc & Hx & _).
  rewrite Hd, Hc, Hx in *.
  exists xs. split; [|exact Hall].
  unfold SocketServer.with_server, try_finally, try_except. rewrite Hxs.
  unfold ready. cbv zeta. destruct (existsb _ _); reflexivity.
Qed.

(** * The file system is only read *)














(** * Requests with another method *)



(** * Interrupts *)

(** C4.  When the interrupt signal arrives while the server is
    listening (blocked in the accept loop after any number of answered
    connections), the run ends with exit status 0 and no traceback, the
    socket is closed (the server is stopped and its address released),
    and the shutdown message is the last thing printed. *)
Theorem C4_interrupt_while_listening (env : environment) (w : world)
    (reqs : list HttpServer.request) (rest : list arrival) :
  startup_signal env = None ->
  port_in_use ServeDocs.PORT w = false ->
  arrivals env = (map Connection reqs ++ Sigint :: rest)%list ->
  (exists w1,
      ServeDocs.run (set_arrivals (map Connection reqs) env) w
      = (ServeDocs.StillRunning InSelect, w1)
      /\ ServeDocs.state_of w1 = Some ServeDocs.StListening)
  /\ (exists w',
         ServeDocs.run env w = (ServeDocs.Exited 0 None, w')
         /\ ServeDocs.state_of w' = Some ServeDocs.StStopped
         /\ stdout w' = (stdout w ++ [banner; farewell])%list
         /\ bound_addresses w' = bound_addresses w
         /\ served (ServeDocs.Handler env) reqs w w').
Proof.
  intros Hsig Hport Harr. split.
  - destruct (run_idle (set_arrivals (map Connection reqs) env) w reqs Hsig Hport eq_refl)
      as (xs & Hrun & _).
    eexists. split; [exact Hrun|].
    unfold ServeDocs.state_of, ready. cbv zeta. destruct (existsb _ _); reflexivity.
  - destruct (run_sigint env w reqs rest Hsig Hport Harr) as (xs & Hrun & Hall).
    eexists. split; [exact Hrun|].
    unfold ready. cbv zeta.
    destruct (existsb _ _); cbn;
      (repeat split; [rewrite <- app_assoc; reflexivity | exists xs; split; [reflexivity|exact Hall]]).
Qed.

(** C10.  A [KeyboardInterrupt] raised while the banner is printed or
    the browser opened -- after the socket was bound, before the accept
    loop -- is not caught: the process ends with the traceback of
    [KeyboardInterrupt] and a non-zero status; the shutdown message is
    not printed and no connection is answered.  The [with] statement
    still closes the socket. *)
Theorem C10_early_interrupt_uncaught (env : environment) (w : world)
    (pt : startup_point) :
  startup_signal env = Some pt ->
  pt = InPrint \/ pt = InBrowserOpen ->
  port_in_use ServeDocs.PORT w = false ->
  exists status w',
    ServeDocs.run env w = (ServeDocs.Exited status (Some KeyboardInterrupt), w')
    /\ status <> 0%Z
    /\ stdout w' = (stdout w ++ match pt with InBrowserOpen => [banner] | _ => [] end)%list
    /\ ~ In farewell (match pt with InBrowserOpen => [banner] | _ => [] end)
    /\ exchanges w' = exchanges w
    /\ sock w' = Closed
    /\ bound_addresses w' = bound_addresses w.
Proof.
  intros Hsig Hpt Hport. exists 130%Z.
  unfold ServeDocs.run, ServeDocs.main, interruptible. rewrite Hsig.
  destruct Hpt as [-> | ->]; cbn [startup_point_eqb];
    unfold bind at 1; rewrite (TCPServer_free w Hport);
    eexists; (split; [reflexivity|]); cbn;
    (repeat split; try discriminate; try (rewrite app_nil_r; reflexivity)).
  - intros [].
  - intros [H|[]]. discriminate.
Qed.

(** * Failures at startup *)

(** C5.  When the port is already bound on the host, the constructor
    of the server raises [OSError] (the bind error), which nothing
    catches: the process ends at once with status 1, having printed
    nothing, launched no browser and answered no connection. *)
Theorem C5_port_in_use_is_fatal (env : environment) (w : world) :
  startup_signal env <> Some InConstructor ->
  port_in_use ServeDocs.PORT w = true ->
  exists w',
    ServeDocs.run env w = (ServeDocs.Exited 1 (Some OSError), w')
    /\ stdout w' = stdout w
    /\ browser_launches w' = browser_launches w
    /\ exchanges w' = exchanges w
    /\ bound_addresses w' = bound_addresses w.
Proof.
  intros Hsig Hport.
  unfold ServeDocs.run, ServeDocs.main.
  assert (E : interruptible env InConstructor (SocketServer.TCPServer ("", ServeDocs.PORT))
              = SocketServer.TCPServer ("", ServeDocs.PORT)).
  { unfold interruptible. destruct (startup_signal env) as [[]|]; try reflexivity.
    congruence. }
  rewrite E. unfold bind at 1. rewrite (TCPServer_busy w Hport).
  eexists. split; [reflexivity|]. repeat split.
Qed.

(** While the first instance listens, the port is in use. *)
Lemma listening_holds_port (env : environment) (w : world) :
  port_in_use ServeDocs.PORT (ServeDocs.spawn (set_exchanges (exchanges w) (ready env w)))
  = true.
Proof.
  unfold ready. cbv zeta. destruct (existsb _ _); reflexivity.
Qed.

(** * The browser *)


(** * Paths that name nothing *)

Section Missing.

Variable mime : string -> option string.
Variable d : Os.node.
Variable cwd : list string.
Variable directory : string.

Lemma send_error_status (cmd : string) (code : Z) (msg : string) :
  HttpServer.status (HttpServer.send_error cmd code msg) = code.
Proof. reflexivity. Qed.

Lemma isdir_false_of_raised (p : string) (e : exn) :
  Os.stat d cwd p = Raised e -> Os.isdir d cwd p = false.
Proof. unfold Os.isdir. intros ->. reflexivity. Qed.

(** A path that names nothing is answered 404 "File not found". *)
Lemma send_file_missing (cmd p : string) :
  Os.stat d cwd p = Raised OSError ->
  HttpServer.send_file mime d cwd cmd p
  = Returned (HttpServer.send_error cmd HttpServer.NOT_FOUND "File not found", None).
Proof.
  intros H. unfold HttpServer.send_file, Os.open_rb. rewrite H.
  destruct (Str.endswith p "/"); reflexivity.
Qed.

Lemma send_head_missing (req : HttpServer.request) :
  Os.stat d cwd (HttpServer.translate_path directory (HttpServer.path req))
  = Raised OSError ->
  HttpServer.send_head mime d cwd directory req
  = Returned (HttpServer.send_error (HttpServer.command req) HttpServer.NOT_FOUND
                "File not found", None).
Proof.
  intros H. unfold HttpServer.send_head.
  rewrite (isdir_false_of_raised _ _ H). apply send_file_missing. exact H.
Qed.

(** When the directory itself names nothing, so does every
    translated path. *)
Lemma stat_without_root (target : string) :
  directory <> "" ->
  Os.namei d cwd directory = None ->
  Os.stat d cwd (HttpServer.translate_path directory target) = Raised OSError
  \/ Os.stat d cwd (HttpServer.translate_path directory target) = Raised ValueError.
Proof.
  intros Hd Hroot. unfold Os.stat.
  destruct (Os.has_nul _); [auto|].
  destruct (Os.namei d cwd (HttpServer.translate_path directory target)) as [loc|] eqn:N;
    [|auto].
  destruct (namei_translate_path d cwd directory target loc Hd N) as (rootloc & Hr & _).
  congruence.
Qed.

Lemma send_head_without_root (req : HttpServer.request) (head : HttpServer.response)
    (f : option HttpServer.body) :
  directory <> "" ->
  Os.namei d cwd directory = None ->
  HttpServer.send_head mime d cwd directory req = Returned (head, f) ->
  HttpServer.status head = HttpServer.NOT_FOUND /\ f = None.
Proof.
  intros Hd Hroot.
  destruct (stat_without_root (HttpServer.path req) Hd Hroot) as [H|H].
  - rewrite (send_head_missing req H). intros E. inversion E. auto.
  - unfold HttpServer.send_head. rewrite (isdir_false_of_raised _ _ H).
    unfold HttpServer.send_file, Os.open_rb. rewrite H.
    destruct (Str.endswith _ "/"); [|discriminate].
    intros E. inversion E. auto.
Qed.

Lemma handle_one_request_without_root (req : HttpServer.request)
    (resp : HttpServer.response) :
  directory <> "" ->
  Os.namei d cwd directory = None ->
  HttpServer.command req = "GET" \/ HttpServer.command req = "HEAD" ->
  HttpServer.handle_one_request mime d cwd directory req = Returned resp ->
  HttpServer.status resp = HttpServer.NOT_FOUND.
Proof.
  intros Hd Hroot Hcmd. unfold HttpServer.handle_one_request. cbv zeta.
  set (req' := HttpServer.mkRequest _ _).
  assert (Hc : HttpServer.command req' = HttpServer.command req) by reflexivity.
  destruct (dispatch_cases mime d cwd directory (HttpServer.command req'))
    as [[_ ->]|[[_ ->]|(N1 & N2 & _)]].
  - unfold HttpServer.do_GET.
    destruct (HttpServer.send_head mime d cwd directory req') as [[head f]|e|b] eqn:S;
      try discriminate.
    destruct (send_head_without_root req' head f Hd Hroot S) as [Hs ->].
    intros E. inversion E. subst. exact Hs.
  - unfold HttpServer.do_HEAD.
    destruct (HttpServer.send_head mime d cwd directory req') as [[head f]|e|b] eqn:S;
      try discriminate.
    destruct (send_head_without_root req' head f Hd Hroot S) as [Hs _].
    intros E. inversion E. subst. exact Hs.
  - rewrite Hc in *. destruct Hcmd; congruence.
Qed.

(** A GET or HEAD request whose translated path names nothing (the
    walk fails, and the path holds no null byte) is answered 404. *)
Lemma missing_path_404 (req : HttpServer.request) :
  HttpServer.command req = "GET" \/ HttpServer.command req = "HEAD" ->
  Os.stat d cwd
    (HttpServer.translate_path directory
       (HttpServer.collapse_slashes (HttpServer.path req)))
  = Raised OSError ->
  HttpServer.handle_one_request mime d cwd directory req
  = Returned (HttpServer.send_error (HttpServer.command req) HttpServer.NOT_FOUND
                "File not found").
Proof.
  intros Hcmd H. unfold HttpServer.handle_one_request. cbv zeta.
  set (req' := HttpServer.mkRequest _ _).
  change (HttpServer.collapse_slashes (HttpServer.path req))
    with (HttpServer.path req') in H.
  change (HttpServer.command req) with (HttpServer.command req').
  destruct (dispatch_cases mime d cwd directory (HttpServer.command req'))
    as [[_ ->]|[[_ ->]|(N1 & N2 & _)]].
  - unfold HttpServer.do_GET. rewrite (send_head_missing req' H). reflexivity.
  - unfold HttpServer.do_HEAD. rewrite (send_head_missing req' H). reflexivity.
  - subst req'. cbn [HttpServer.command] in N1, N2. destruct Hcmd; congruence.
Qed.

End Missing.

(** C6, as the code has it.  There is no check of the directory at
    startup: when the directory of the script names nothing, [main]
    still binds, prints the banner and enters the accept loop, where
    every GET or HEAD request that is answered is answered 404. *)
Theorem C6_missing_root_serves_404 (env : environment) (w : world)
    (reqs : list HttpServer.request) :
  Os.namei (disk w) (cwd w) (Pathlib.str (ServeDocs.DIRECTORY env)) = None ->
  startup_signal env = None ->
  port_in_use ServeDocs.PORT w = false ->
  arrivals env = map Connection reqs ->
  (exists w',
      ServeDocs.run env w = (ServeDocs.StillRunning InSelect, w')
      /\ ServeDocs.state_of w' = Some ServeDocs.StListening
      /\ stdout w' = (stdout w ++ [banner])%list
      /\ served (ServeDocs.Handler env) reqs w w')
  /\ (forall req resp,
         HttpServer.command req = "GET" \/ HttpServer.command req = "HEAD" ->
         ServeDocs.Handler env (disk w) (cwd w) req = Returned resp ->
         HttpServer.status resp = 404%Z).
Proof.
  intros Hroot Hsig Hport Harr. split.
  - destruct (run_idle env w reqs Hsig Hport Harr) as (xs & Hrun & Hall).
    eexists. split; [exact Hrun|].
    unfold ready. cbv zeta. destruct (existsb _ _); cbn;
      (repeat split; exists xs; split; [reflexivity|exact Hall]).
  - intros req resp Hcmd H.
    exact (handle_one_request_without_root (mimetypes env) (disk w) (cwd w) _ req resp
             (pathlib_str_nonempty _) Hroot Hcmd H).
Qed.

(** * Confinement to the served directory *)


(** * Percent-encoding *)

Lemma quoted_char_facts (c : ascii) :
  quoted_char c = true ->
  Str.isspace c = false /\ Ascii.eqb c "?" = false /\ Ascii.eqb c "#" = false.
Proof.
  destruct c as [[] [] [] [] [] [] [] []]; vm_compute; intros H;
    try discriminate; auto.
Qed.

Lemma hexdigit_facts (c : ascii) :
  let n := nat_of_ascii c in
  UrlParse.always_safe (UrlParse.hexdigit (n / 16)) = true
  /\ UrlParse.always_safe (UrlParse.hexdigit (n mod 16)) = true
  /\ UrlParse.hexval (UrlParse.hexdigit (n / 16)) = Some (n / 16)
  /\ UrlParse.hexval (UrlParse.hexdigit (n mod 16)) = Some (n mod 16)
  /\ ascii_of_nat (16 * (n / 16) + n mod 16) = c.
Proof.
  destruct c as [[] [] [] [] [] [] [] []]; vm_compute; auto.
Qed.

Lemma safe_not_percent (c : ascii) :
  UrlParse.always_safe c || Ascii.eqb c "/" = true -> Ascii.eqb c "%" = false.
Proof.
  destruct c as [[] [] [] [] [] [] [] []]; vm_compute; intros H;
    try discriminate; auto.
Qed.

Lemma safe_not_slash (c : ascii) :
  UrlParse.always_safe c = true -> Ascii.eqb c "/" = false.
Proof.
  destruct c as [[] [] [] [] [] [] [] []]; vm_compute; intros H;
    try discriminate; auto.
Qed.

Lemma quote_all_quoted (s : string) : all_chars quoted_char (UrlParse.quote s) = true.
Proof.
  induction s as [|c s IH]; [reflexivity|].
  cbn [UrlParse.quote].
  destruct (UrlParse.always_safe c || Ascii.eqb c "/") eqn:E.
  - cbn [all_chars]. rewrite IH, andb_true_r.
    unfold quoted_char. rewrite E. reflexivity.
  - cbv zeta. cbn [all_chars]. rewrite IH.
    destruct (hexdigit_facts c) as (H1 & H2 & _). cbv zeta in H1, H2.
    unfold quoted_char at 2 3. rewrite H1, H2. reflexivity.
Qed.

Lemma all_chars_contains (P : ascii -> bool) (sep : ascii) (s : string) :
  (forall c, P c = true -> Ascii.eqb c sep = false) ->
  all_chars P s = true -> Str.contains s sep = false.
Proof.
  intros HP. induction s as [|c s IH]; simpl; [reflexivity|].
  intros H. apply andb_true_iff in H. destruct H as [Hc Hs].
  rewrite (HP c Hc), (IH Hs). reflexivity.
Qed.

Lemma before_without_sep (sep : ascii) (s : string) :
  Str.contains s sep = false -> Str.before sep s = s.
Proof.
  induction s as [|c s IH]; simpl; [reflexivity|].
  intros H. apply orb_false_iff in H. destruct H as [Hc Hs].
  rewrite Hc, (IH Hs). reflexivity.
Qed.

Lemma rstrip_without_space (s : string) :
  all_chars (fun c => negb (Str.isspace c)) s = true -> Str.rstrip s = s.
Proof.
  induction s as [|c s IH]; simpl; [reflexivity|].
  intros H. apply andb_true_iff in H. destruct H as [Hc Hs].
  rewrite (IH Hs). apply negb_true_iff in Hc. rewrite Hc.
  destruct s; reflexivity.
Qed.

Lemma all_chars_impl (P Q : ascii -> bool) (s : string) :
  (forall c, P c = true -> Q c = true) ->
  all_chars P s = true -> all_chars Q s = true.
Proof.
  intros HPQ. induction s as [|c s IH]; simpl; [reflexivity|].
  intros H. apply andb_true_iff in H. destruct H as [Hc Hs].
  rewrite (HPQ c Hc), (IH Hs). reflexivity.
Qed.

(** Decoding undoes encoding. *)
Lemma unquote_quote (s : string) : UrlParse.unquote (UrlParse.quote s) = s.
Proof.
  induction s as [|c s IH]; [reflexivity|].
  cbn [UrlParse.quote].
  destruct (UrlParse.always_safe c || Ascii.eqb c "/") eqn:E.
  - cbn [UrlParse.unquote]. rewrite (safe_not_percent c E), IH. reflexivity.
  - cbv zeta. cbn [UrlParse.unquote].
    change (Ascii.eqb "%" "%") with true. cbv iota.
    destruct (hexdigit_facts c) as (_ & _ & H3 & H4 & H5). cbv zeta in H3, H4, H5.
    rewrite H3, H4, H5, IH. reflexivity.
Qed.

Lemma quote_empty (s : string) : UrlParse.quote s = "" -> s = "".
Proof.
  destruct s as [|c s]; [reflexivity|]. cbn [UrlParse.quote].
  destruct (UrlParse.always_safe c || Ascii.eqb c "/"); discriminate.
Qed.

Lemma endswith_cons (a c : ascii) (s : string) :
  s <> "" -> Str.endswith (String a s) c = Str.endswith s c.
Proof. destruct s; [congruence|reflexivity]. Qed.

Lemma endswith_quote (s : string) :
  Str.endswith (UrlParse.quote s) "/" = Str.endswith s "/".
Proof.
  induction s as [|c s IH]; [reflexivity|].
  cbn [UrlParse.quote].
  destruct (UrlParse.always_safe c || Ascii.eqb c "/") eqn:E.
  - destruct s as [|c' s']; [reflexivity|].
    assert (Q : UrlParse.quote (String c' s') <> "").
    { intros Q. apply quote_empty in Q. discriminate. }
    rewrite (endswith_cons c "/" _ Q).
    rewrite (endswith_cons c "/" (String c' s')) by discriminate.
    exact IH.
  - cbv zeta. apply orb_false_iff in E. destruct E as [_ E].
    destruct s as [|c' s'].
    + cbn [UrlParse.quote Str.endswith]. rewrite E.
      destruct (hexdigit_facts c) as (_ & H2 & _). cbv zeta in H2.
      apply safe_not_slash. exact H2.
    + assert (Q : UrlParse.quote (String c' s') <> "").
      { intros Q. apply quote_empty in Q. discriminate. }
      rewrite (endswith_cons "%" "/") by discriminate.
      rewrite (endswith_cons _ "/") by discriminate.
      rewrite (endswith_cons _ "/" _ Q).
      rewrite (endswith_cons c "/" (String c' s')) by discriminate.
      exact IH.
Qed.

(** * The relative path of a file *)

Lemma join_cons2 (n m : string) (rest : list string) :
  Str.join "/" (n :: m :: rest) = n ++ String "/" (Str.join "/" (m :: rest)).
Proof. reflexivity. Qed.

Lemma join_first_nonempty (n : string) (rest : list string) :
  n <> "" -> Str.join "/" (n :: rest) <> "".
Proof.
  intros Hn. destruct rest as [|m rest]; [exact Hn|].
  rewrite join_cons2. intros E. apply append_eq_empty in E. destruct E; congruence.
Qed.

Lemma split_join_segments (names : list string) :
  names <> [] -> Forall (fun n => Str.contains n "/" = false) names ->
  Str.split "/" (Str.join "/" names) = names.
Proof.
  intros Hne H. induction H as [|n rest Hc Hrest IH]; [congruence|].
  destruct rest as [|m rest'].
  - simpl. apply split_without_sep. exact Hc.
  - rewrite join_cons2, split_app_sep, (split_without_sep _ n Hc).
    rewrite IH by discriminate. reflexivity.
Qed.

Lemma split_join (names : list string) :
  names <> [] -> Forall plain names ->
  Str.split "/" (Str.join "/" names) = names.
Proof.
  intros Hne H. apply split_join_segments; [exact Hne|].
  eapply Forall_impl; [|exact H]. intros n Hn. apply (plain_name_inv n Hn).
Qed.

Lemma endswith_contains (s : string) (c : ascii) :
  Str.endswith s c = true -> Str.contains s c = true.
Proof.
  induction s as [|a s IH]; simpl; [discriminate|].
  destruct s as [|b s'].
  - intros ->. reflexivity.
  - intros H. rewrite (IH H). apply orb_true_r.
Qed.

Lemma plain_not_endswith_slash (n : string) :
  plain n -> Str.endswith n "/" = false.
Proof.
  intros Hn. destruct (plain_name_inv n Hn) as (_ & Hc & _).
  destruct (Str.endswith n "/") eqn:E; [|reflexivity].
  apply endswith_contains in E. congruence.
Qed.

Lemma endswith_join (names : list string) :
  names <> [] -> Forall plain names ->
  Str.endswith (Str.join "/" names) "/" = false.
Proof.
  intros Hne H. induction H as [|n rest Hn Hrest IH]; [congruence|].
  destruct rest as [|m rest'].
  - simpl. apply plain_not_endswith_slash. exact Hn.
  - rewrite join_cons2.
    rewrite endswith_app_nonempty by discriminate.
    inversion Hrest as [|? ? Hm _]; subst.
    destruct (plain_name_inv m Hm) as (Hmne & _).
    rewrite endswith_cons by (apply join_first_nonempty; exact Hmne).
    apply IH. discriminate.
Qed.

Lemma no_leading_slash (n : string) :
  Str.contains n "/" = false -> Str.startswith n "/" = false.
Proof.
  destruct n as [|c n]; [reflexivity|]. intros Hc.
  rewrite startswith_cons. cbn [Str.contains] in Hc.
  apply orb_false_iff in Hc. destruct Hc as [Hc _].
  rewrite Ascii.eqb_sym. exact Hc.
Qed.

Lemma join_segments_no_leading_slash (n : string) (rest : list string) :
  n <> "" -> Str.contains n "/" = false ->
  Str.startswith (Str.join "/" (n :: rest)) "/" = false.
Proof.
  intros Hnn Hc. pose proof (no_leading_slash n Hc) as Hl.
  destruct rest as [|m rest']; [exact Hl|].
  rewrite join_cons2. rewrite startswith_app by exact Hnn. exact Hl.
Qed.

Lemma join_no_leading_slash (names : list string) :
  names <> [] -> Forall plain names ->
  Str.startswith (Str.join "/" names) "/" = false.
Proof.
  intros Hne H. destruct H as [|n rest Hn _]; [congruence|].
  destruct (plain_name_inv n Hn) as (Hnn & Hc & _).
  apply join_segments_no_leading_slash; assumption.
Qed.

(** * [normpath] on a clean absolute path *)

Lemma normpath_step_plain (k : nat) (acc : list string) (n : string) :
  plain n -> PosixPath.normpath_step k acc n = n :: acc.
Proof.
  intros Hn. destruct (plain_name_eqb n Hn) as (E1 & E2 & E3).
  unfold PosixPath.normpath_step, PosixPath.curdir, PosixPath.pardir.
  rewrite E1, E2, E3. reflexivity.
Qed.

Lemma normpath_fold_plain (k : nat) (names acc : list string) :
  Forall plain names ->
  fold_left (PosixPath.normpath_step k) names acc = (rev names ++ acc)%list.
Proof.
  intros H. revert acc. induction H as [|n rest Hn _ IH]; intros acc; [reflexivity|].
  cbn [fold_left]. rewrite (normpath_step_plain k acc n Hn), IH.
  cbn [rev]. rewrite <- app_assoc. reflexivity.
Qed.

Lemma startswith_two_slashes (s : string) :
  Str.startswith s "/" = false -> Str.startswith (String "/" s) "//" = false.
Proof.
  unfold Str.startswith. cbn [String.prefix].
  destruct (ascii_dec "/" "/") as [_|N]; [|congruence].
  auto.
Qed.

Lemma normpath_clean (names : list string) :
  names <> [] -> Forall plain names ->
  PosixPath.normpath (String "/" (Str.join "/" names)) = String "/" (Str.join "/" names).
Proof.
  intros Hne H. unfold PosixPath.normpath.
  change (String "/" (Str.join "/" names) =? "") with false. cbv iota.
  rewrite startswith_cons. change (Ascii.eqb "/" "/") with true. cbv iota.
  rewrite (startswith_two_slashes _ (join_no_leading_slash names Hne H)).
  cbn [andb]. cbv zeta.
  unfold PosixPath.sep.
  cbn [Str.split]. change (Ascii.eqb "/" "/") with true. cbv iota.
  rewrite (split_join names Hne H).
  cbn [fold_left]. change (PosixPath.normpath_step 1 [] "") with (@nil string).
  rewrite (normpath_fold_plain 1 names [] H), app_nil_r, rev_involutive.
  reflexivity.
Qed.

(** * The words of a quoted relative path *)

Lemma dirname_plain (n : string) : plain n -> PosixPath.dirname n = "".
Proof.
  intros Hn. destruct (plain_name_inv n Hn) as (_ & Hc & _).
  unfold PosixPath.dirname.
  assert (E : PosixPath.head_of n = "").
  { destruct n as [|c n]; [reflexivity|]. cbn [PosixPath.head_of].
    unfold PosixPath.sep. rewrite Hc. reflexivity. }
  rewrite E. reflexivity.
Qed.

Lemma filter_plain_nonempty (names : list string) :
  Forall plain names -> filter (fun w => negb (w =? "")) names = names.
Proof.
  induction 1 as [|n rest Hn _ IH]; [reflexivity|].
  destruct (plain_name_eqb n Hn) as (E1 & _).
  cbn [filter]. rewrite E1, IH. reflexivity.
Qed.

Lemma filter_plain_kept (names : list string) :
  Forall plain names ->
  filter (fun w => negb (HttpServer.ignored_word w)) names = names.
Proof.
  induction 1 as [|n rest Hn _ IH]; [reflexivity|].
  destruct (plain_name_eqb n Hn) as (_ & E2 & E3).
  cbn [filter]. unfold HttpServer.ignored_word at 1.
  rewrite (dirname_plain n Hn).
  unfold PosixPath.curdir, PosixPath.pardir. rewrite E2, E3, IH. reflexivity.
Qed.

Lemma target_clean (names : list string) :
  Str.before "#" (Str.before "?" (target_of names)) = target_of names
  /\ Str.rstrip (target_of names) = target_of names.
Proof.
  assert (A : all_chars quoted_char (target_of names) = true).
  { unfold target_of. cbn [all_chars]. rewrite quote_all_quoted. reflexivity. }
  split.
  - rewrite (before_without_sep "?").
    + apply before_without_sep.
      apply (all_chars_contains quoted_char); [|exact A].
      intros c Hc. apply (quoted_char_facts c Hc).
    + apply (all_chars_contains quoted_char); [|exact A].
      intros c Hc. apply (quoted_char_facts c Hc).
  - apply rstrip_without_space.
    apply (all_chars_impl quoted_char); [|exact A].
    intros c Hc. destruct (quoted_char_facts c Hc) as (-> & _). reflexivity.
Qed.

Lemma requested_words_target (names : list string) :
  names <> [] -> Forall plain names ->
  HttpServer.requested_words (target_of names) = names.
Proof.
  intros Hne H. unfold HttpServer.requested_words. cbv zeta.
  destruct (target_clean names) as [-> _].
  unfold target_of. cbn [UrlParse.unquote].
  change (Ascii.eqb "/" "%") with false. cbv iota.
  rewrite unquote_quote, (normpath_clean names Hne H).
  cbn [Str.split]. change (Ascii.eqb "/" "/") with true. cbv iota.
  rewrite (split_join names Hne H).
  cbn [filter String.eqb negb].
  rewrite (filter_plain_nonempty names H). apply filter_plain_kept. exact H.
Qed.

Lemma trailing_slash_target (names : list string) :
  names <> [] -> Forall plain names ->
  HttpServer.trailing_slash (target_of names) = false.
Proof.
  intros Hne H. unfold HttpServer.trailing_slash.
  destruct (target_clean names) as [-> ->].
  unfold target_of.
  assert (Q : UrlParse.quote (Str.join "/" names) <> "").
  { intros Q. apply quote_empty in Q.
    destruct H as [|n rest Hn _]; [congruence|].
    destruct (plain_name_inv n Hn) as (Hnn & _).
    exact (join_first_nonempty n rest Hnn Q). }
  rewrite (endswith_cons _ _ _ Q), endswith_quote.
  apply endswith_join; assumption.
Qed.

Lemma translate_path_target (directory : string) (names : list string) :
  names <> [] -> Forall plain names ->
  HttpServer.translate_path directory (target_of names)
  = fold_left PosixPath.join names directory.
Proof.
  intros Hne H. rewrite translate_path_words. cbv zeta.
  rewrite (requested_words_target names Hne H), (trailing_slash_target names Hne H).
  reflexivity.
Qed.

(** * Resolving the path of an existing file *)

Lemma lookup_app (d : Os.node) (a b : list string) :
  Os.lookup d (a ++ b)%list
  = match Os.lookup d a with
    | Some y => Os.lookup y b
    | None => None
    end.
Proof.
  revert d. induction a as [|n a IH]; intros d; [reflexivity|].
  cbn [app Os.lookup]. destruct d as [r c|r entries]; [reflexivity|].
  destruct (Os.child n entries); [apply IH|reflexivity].
Qed.

Lemma lookup_parent_is_dir (d : Os.node) (l : list string) (n : string)
    (rest : list string) (x : Os.node) :
  Os.lookup d (l ++ n :: rest)%list = Some x ->
  Os.is_dir_at d l = true /\ exists y, Os.lookup d (l ++ [n])%list = Some y.
Proof.
  rewrite lookup_app. unfold Os.is_dir_at. rewrite (lookup_app d l [n]).
  destruct (Os.lookup d l) as [y|]; [|discriminate].
  cbn [Os.lookup]. destruct y as [r c|r entries]; [discriminate|].
  destruct (Os.child n entries) as [z|]; [|discriminate].
  intros _. split; [reflexivity|]. exists z. reflexivity.
Qed.

Lemma walk_step_down (d : Os.node) (l : list string) (w : string) (y : Os.node) :
  plain w ->
  Os.is_dir_at d l = true ->
  Os.lookup d (l ++ [w])%list = Some y ->
  Os.walk_step d (Some l) w = Some (l ++ [w])%list.
Proof.
  intros Hw Hd Hl. destruct (plain_name_eqb w Hw) as (E1 & E2 & E3).
  unfold Os.walk_step. rewrite Hd, E1, E2, E3, Hl. reflexivity.
Qed.

Lemma namei_join_down (d : Os.node) (cwd : list string) (p w : string)
    (l : list string) (y : Os.node) :
  p <> "" ->
  plain w ->
  Os.namei d cwd p = Some l ->
  Os.is_dir_at d l = true ->
  Os.lookup d (l ++ [w])%list = Some y ->
  Os.namei d cwd (PosixPath.join p w) = Some (l ++ [w])%list.
Proof.
  intros Hp Hw Hn Hd Hl. destruct (plain_name_inv w Hw) as (Hne & Hc & _).
  unfold PosixPath.join. rewrite (plain_name_no_leading_slash w Hw).
  rewrite (eqb_empty_false p Hp). cbn [orb].
  destruct (Str.endswith p PosixPath.sep) eqn:E.
  - destruct (endswith_inv _ _ E) as [q Hq]. subst p.
    rewrite append_assoc. cbn [append].
    revert Hn. unfold Os.namei.
    destruct (q ++ String PosixPath.sep w =? "") eqn:E1.
    { apply String.eqb_eq in E1. apply append_eq_empty in E1. destruct E1; discriminate. }
    rewrite (eqb_empty_false _ Hp).
    assert (Hs : forall x, Str.startswith (q ++ String PosixPath.sep x) "/" =
                           Str.startswith (q ++ String PosixPath.sep "") "/").
    { intros x. destruct q; cbn [append]; rewrite !startswith_cons; reflexivity. }
    rewrite (Hs w). clear Hs.
    unfold PosixPath.sep.
    rewrite !split_app_sep, !fold_left_app.
    rewrite (split_without_sep _ w Hc). cbn [Str.split fold_left].
    destruct (fold_left (Os.walk_step d) (Str.split "/" q) _) as [l'|];
      [|discriminate].
    unfold Os.walk_step at 1. destruct (Os.is_dir_at d l'); [|discriminate].
    cbn [String.eqb orb]. intros H. inversion H. subst l'.
    exact (walk_step_down d l w y Hw Hd Hl).
  - change (p ++ "/" ++ w) with (p ++ String "/" w).
    revert Hn. unfold Os.namei.
    destruct (p ++ String "/" w =? "") eqn:E1.
    { apply String.eqb_eq in E1. apply append_eq_empty in E1. destruct E1; congruence. }
    rewrite (eqb_empty_false _ Hp).
    rewrite (startswith_app p _ "/" Hp).
    rewrite split_app_sep, fold_left_app.
    rewrite (split_without_sep _ w Hc). cbn [fold_left].
    intros ->. exact (walk_step_down d l w y Hw Hd Hl).
Qed.

Lemma namei_fold_join_down (d : Os.node) (cwd : list string) (names : list string) :
  Forall plain names ->
  forall (p : string) (l0 : list string) (x : Os.node),
    p <> "" ->
    Os.namei d cwd p = Some l0 ->
    Os.lookup d (l0 ++ names)%list = Some x ->
    Os.namei d cwd (fold_left PosixPath.join names p) = Some (l0 ++ names)%list.
Proof.
  induction 1 as [|n rest Hn _ IH]; intros p l0 x Hp Hp0 Hl.
  - rewrite app_nil_r. exact Hp0.
  - cbn [fold_left].
    destruct (lookup_parent_is_dir d l0 n rest x Hl) as (Hd & y & Hy).
    pose proof (namei_join_down d cwd p n l0 y Hp Hn Hp0 Hd Hy) as Hj.
    replace (l0 ++ n :: rest)%list with ((l0 ++ [n]) ++ rest)%list in *
      by (rewrite <- app_assoc; reflexivity).
    exact (IH (PosixPath.join p n) (l0 ++ [n])%list x (join_nonempty p n Hp) Hj Hl).
Qed.

Lemma has_nul_join (p w : string) :
  Os.has_nul p = false -> Os.has_nul w = false ->
  Os.has_nul (PosixPath.join p w) = false.
Proof.
  unfold Os.has_nul, PosixPath.join. intros Hp Hw.
  destruct (Str.startswith w "/"); [exact Hw|].
  destruct ((p =? "") || Str.endswith p PosixPath.sep);
    rewrite ?contains_app, Hp, ?contains_app, Hw; reflexivity.
Qed.

Lemma has_nul_fold_join (names : list string) :
  Forall (fun n => Os.has_nul n = false) names ->
  forall p, Os.has_nul p = false ->
            Os.has_nul (fold_left PosixPath.join names p) = false.
Proof.
  induction 1 as [|n rest Hn _ IH]; intros p Hp; [exact Hp|].
  cbn [fold_left]. apply IH. apply has_nul_join; assumption.
Qed.

Lemma endswith_join_plain (p w : string) :
  p <> "" -> plain w -> Str.endswith (PosixPath.join p w) "/" = false.
Proof.
  intros Hp Hw. destruct (plain_name_inv w Hw) as (Hne & _).
  unfold PosixPath.join. rewrite (plain_name_no_leading_slash w Hw).
  destruct ((p =? "") || Str.endswith p PosixPath.sep).
  - rewrite endswith_app_nonempty by exact Hne. apply plain_not_endswith_slash. exact Hw.
  - rewrite endswith_app_nonempty by discriminate.
    change ("/" ++ w) with (String "/" w).
    rewrite endswith_cons by exact Hne. apply plain_not_endswith_slash. exact Hw.
Qed.

Lemma endswith_fold_join (names : list string) (p : string) :
  names <> [] -> Forall plain names -> p <> "" ->
  Str.endswith (fold_left PosixPath.join names p) "/" = false.
Proof.
  intros Hne H Hp.
  destruct (exists_last Hne) as (names' & n & ->).
  rewrite fold_left_app. cbn [fold_left].
  apply Forall_app in H. destruct H as [_ Hn]. inversion Hn; subst.
  apply endswith_join_plain; [|assumption].
  apply fold_join_nonempty. exact Hp.
Qed.

Lemma file_name_inv (n : string) :
  Os.file_name n = true -> plain n /\ Os.has_nul n = false.
Proof.
  unfold Os.file_name. intros H. apply andb_true_iff in H. destruct H as [H1 H2].
  apply negb_true_iff in H2. auto.
Qed.

Lemma target_no_double_slash (names : list string) :
  names <> [] -> Forall plain names ->
  Str.startswith (target_of names) "//" = false.
Proof.
  intros Hne H. unfold target_of. apply startswith_two_slashes.
  destruct H as [|n rest Hn _]; [congruence|].
  destruct (plain_name_inv n Hn) as (Hnn & Hc & _).
  destruct n as [|c n]; [congruence|].
  assert (Hq : exists t, UrlParse.quote (Str.join "/" (String c n :: rest))
                         = String (if UrlParse.always_safe c || Ascii.eqb c "/"
                                   then c else "%"%char) t).
  { destruct rest as [|m rest'].
    - cbn [Str.join String.concat UrlParse.quote].
      destruct (UrlParse.always_safe c || Ascii.eqb c "/"); eexists; reflexivity.
    - rewrite join_cons2. cbn [append UrlParse.quote].
      destruct (UrlParse.always_safe c || Ascii.eqb c "/"); eexists; reflexivity. }
  destruct Hq as [t ->]. rewrite startswith_cons.
  cbn [Str.contains] in Hc. apply orb_false_iff in Hc. destruct Hc as [Hc _].
  destruct (UrlParse.always_safe c || Ascii.eqb c "/"); [|reflexivity].
  rewrite Ascii.eqb_sym. exact Hc.
Qed.


(** * The directory of the script *)

Lemma walk_first_is_dir (d : Os.node) (c : string) (rest : list string)
    (st l : list string) :
  fold_left (Os.walk_step d) (c :: rest) (Some st) = Some l ->
  Os.is_dir_at d st = true.
Proof.
  cbn [fold_left]. unfold Os.walk_step at 2.
  destruct (Os.is_dir_at d st); [reflexivity|].
  rewrite walk_step_none. discriminate.
Qed.

(** Empty components and [.] do not move the walk. *)
Lemma walk_filter (d : Os.node) (cs : list string) :
  forall st l,
    fold_left (Os.walk_step d) cs (Some st) = Some l ->
    fold_left (Os.walk_step d) (filter kept_part cs) (Some st) = Some l.
Proof.
  induction cs as [|c cs IH]; intros st l H; [exact H|].
  pose proof (walk_first_is_dir d c cs st l H) as Hd.
  cbn [fold_left] in H. cbn [filter]. unfold kept_part at 1.
  destruct (c =? "") eqn:E1.
  - cbn [negb andb]. apply IH. revert H. unfold Os.walk_step at 2.
    rewrite Hd, E1. auto.
  - destruct (c =? ".") eqn:E2.
    + cbn [negb andb]. apply IH. revert H. unfold Os.walk_step at 2.
      rewrite Hd, E1, E2. auto.
    + cbn [negb andb fold_left].
      destruct (Os.walk_step d (Some st) c) as [st'|]; [apply IH; exact H|].
      rewrite walk_step_none in H. discriminate.
Qed.

Lemma is_dir_at_removelast (d : Os.node) (l : list string) :
  Os.is_dir_at d l = true -> Os.is_dir_at d (removelast l) = true.
Proof.
  destruct l as [|a l] using rev_ind; [auto|].
  rewrite removelast_last. unfold Os.is_dir_at at 1.
  destruct (Os.lookup d (l ++ [a])) as [x|] eqn:L; [|discriminate].
  intros _. exact (proj1 (lookup_parent_is_dir d l a [] x L)).
Qed.

(** The last step of a walk that ends on a regular file goes down to
    that file by its name. *)
Lemma walk_last_step_to_file (d : Os.node) (l loc : list string) (n : string)
    (r : bool) (content : list Byte.byte) :
  Os.walk_step d (Some l) n = Some loc ->
  Os.lookup d loc = Some (Os.File r content) ->
  loc = (l ++ [n])%list /\ kept_part n = true /\ Os.is_dir_at d l = true.
Proof.
  unfold Os.walk_step. destruct (Os.is_dir_at d l) eqn:Hd; [|discriminate].
  unfold kept_part.
  destruct (n =? "") eqn:E1; [|destruct (n =? ".") eqn:E2].
  - cbn [orb]. intros H Hf. inversion H. subst loc.
    unfold Os.is_dir_at in Hd. rewrite Hf in Hd. discriminate.
  - cbn [orb]. intros H Hf. inversion H. subst loc.
    unfold Os.is_dir_at in Hd. rewrite Hf in Hd. discriminate.
  - cbn [orb]. destruct (n =? "..").
    + intros H Hf. inversion H. subst loc.
      apply is_dir_at_removelast in Hd.
      unfold Os.is_dir_at in Hd. rewrite Hf in Hd. discriminate.
    + destruct (Os.lookup d (l ++ [n])); [|discriminate].
      intros H _. inversion H. auto.
Qed.

Lemma filter_kept_segments (s : string) :
  Forall (fun n => Str.contains n "/" = false) (filter kept_part (Str.split "/" s)).
Proof.
  apply Forall_forall. intros n Hn. apply filter_In in Hn.
  destruct Hn as [Hn _]. exact (split_no_sep _ _ _ Hn).
Qed.

Lemma Forall_app_l {A : Type} (P : A -> Prop) (a b : list A) :
  Forall P (a ++ b) -> Forall P a.
Proof. intros H. apply Forall_app in H. tauto. Qed.

Lemma pathlib_root_cases (s : string) :
  (Str.startswith s "/" = false /\ Pathlib.root (Pathlib.Path s) = "")
  \/ (Str.startswith s "/" = true
      /\ (Pathlib.root (Pathlib.Path s) = "/" \/ Pathlib.root (Pathlib.Path s) = "//")).
Proof.
  unfold Pathlib.Path. cbn [Pathlib.root].
  destruct (Str.startswith s "/"); [right|left; auto].
  split; [reflexivity|]. destruct (_ && _); auto.
Qed.

Lemma split_starts_empty (s : string) :
  Str.startswith s "/" = true -> exists rest, Str.split "/" s = "" :: rest.
Proof.
  destruct s as [|c s]; [discriminate|].
  rewrite startswith_cons. intros H. apply Ascii.eqb_eq in H. subst c.
  cbn [Str.split]. change (Ascii.eqb "/" "/") with true. cbv iota.
  eexists. reflexivity.
Qed.

Lemma walk_empty_prefix (d : Os.node) (comps : list string) :
  Os.is_dir_at d [] = true ->
  fold_left (Os.walk_step d) ("" :: comps) (Some [])
  = fold_left (Os.walk_step d) comps (Some []).
Proof. intros H. cbn [fold_left]. rewrite (walk_step_stay d [] H). reflexivity. Qed.

Lemma walk_joined_segments (d : Os.node) (ps : list string) :
  Forall (fun n => Str.contains n "/" = false) ps ->
  Os.is_dir_at d [] = true ->
  fold_left (Os.walk_step d) (Str.split "/" (Str.join "/" ps)) (Some [])
  = fold_left (Os.walk_step d) ps (Some []).
Proof.
  intros Hseg Hd. destruct ps as [|p ps].
  - cbn [Str.join String.concat Str.split]. apply walk_empty_prefix. exact Hd.
  - rewrite split_join_segments by (discriminate || exact Hseg). reflexivity.
Qed.

(** The served directory is the one that holds the script: if
    [__file__] names a regular file, [str(Path(__file__).parent)] names
    the directory that file is an entry of. *)
Lemma DIRECTORY_holds_script (env : environment) (d : Os.node) (cwd loc : list string)
    (r : bool) (content : list Byte.byte) :
  Os.namei d cwd (script env) = Some loc ->
  Os.lookup d loc = Some (Os.File r content) ->
  Os.namei d cwd (Pathlib.str (ServeDocs.DIRECTORY env)) = Some (removelast loc).
Proof.
  set (s := script env).
  unfold Os.namei at 1. destruct (s =? "") eqn:Es; [discriminate|].
  set (start := if Str.startswith s "/" then [] else cwd).
  intros Hwalk Hfile.
  destruct (exists_last (split_nonempty "/" s)) as (cs & n & Hcs).
  rewrite Hcs, fold_left_app in Hwalk. cbn [fold_left] in Hwalk.
  destruct (fold_left (Os.walk_step d) cs (Some start)) as [l|] eqn:Hl;
    [|discriminate].
  destruct (walk_last_step_to_file d l loc n r content Hwalk Hfile) as (-> & Hn & Hdl).
  rewrite removelast_last.
  (* the parts of the path and of its parent *)
  unfold ServeDocs.DIRECTORY. fold s.
  assert (Hparts : Pathlib.parts (Pathlib.Path s) = (filter kept_part cs ++ [n])%list).
  { unfold Pathlib.Path. cbn [Pathlib.parts]. rewrite Hcs, filter_app.
    cbn [filter]. fold (kept_part n). rewrite Hn. reflexivity. }
  assert (Hparent : Pathlib.parent (Pathlib.Path s)
                    = Pathlib.mkPath (Pathlib.root (Pathlib.Path s)) (filter kept_part cs)).
  { unfold Pathlib.parent. rewrite Hparts.
    destruct (filter kept_part cs ++ [n])%list eqn:E.
    - destruct (filter kept_part cs); discriminate.
    - rewrite <- E, removelast_last. reflexivity. }
  rewrite Hparent. unfold Pathlib.str. cbn [Pathlib.root Pathlib.parts].
  pose proof (walk_filter d cs start l Hl) as Hps.
  assert (Hseg : Forall (fun n => Str.contains n "/" = false) (filter kept_part cs)).
  { pose proof (filter_kept_segments s) as H. rewrite Hcs, filter_app in H.
    exact (Forall_app_l _ _ _ H). }
  assert (Hfirst : forall p ps, filter kept_part cs = p :: ps -> p <> "").
  { intros p ps E. assert (In p (filter kept_part cs)) by (rewrite E; left; reflexivity).
    apply filter_In in H. destruct H as [_ H]. unfold kept_part in H.
    apply andb_true_iff in H. destruct H as [H _]. apply negb_true_iff in H.
    intros ->. discriminate. }
  destruct (pathlib_root_cases s) as [[Hrel ->]|[Habs Hroot]].
  - (* relative script path *)
    unfold start in *. rewrite Hrel in *. cbn [append].
    destruct (filter kept_part cs) as [|p ps] eqn:Eps.
    + cbn [Str.join String.concat String.eqb]. cbn [fold_left] in Hps.
      inversion Hps. subst l.
      unfold Os.namei. cbn [String.eqb Str.split fold_left].
      change (Str.startswith "." "/") with false. cbv iota.
      change (Ascii.eqb "." "/") with false. cbv iota. cbn [fold_left].
      unfold Os.walk_step. rewrite Hdl. reflexivity.
    + assert (Hp : p <> "") by (eapply Hfirst; reflexivity).
      inversion Hseg as [|? ? Hpc _]; subst.
      rewrite (eqb_empty_false _ (join_first_nonempty p ps Hp)).
      unfold Os.namei.
      rewrite (eqb_empty_false _ (join_first_nonempty p ps Hp)).
      rewrite (join_segments_no_leading_slash p ps Hp Hpc).
      rewrite (split_join_segments (p :: ps)) by (discriminate || exact Hseg).
      exact Hps.
  - (* absolute script path *)
    unfold start in *. rewrite Habs in *.
    destruct (split_starts_empty s Habs) as (rest & Hrest).
    assert (Hroot_dir : Os.is_dir_at d [] = true).
    { destruct cs as [|c cs'].
      - cbn [app] in Hcs. rewrite Hrest in Hcs. inversion Hcs. subst n.
        discriminate.
      - exact (walk_first_is_dir d c cs' [] l Hl). }
    rewrite <- (walk_joined_segments d _ Hseg Hroot_dir) in Hps.
    destruct Hroot as [-> | ->]; cbn [append String.eqb];
      unfold Os.namei; cbn [String.eqb];
      rewrite ?startswith_cons; change (Ascii.eqb "/" "/") with true; cbv iota;
      cbn [Str.split]; change (Ascii.eqb "/" "/") with true; cbv iota;
      rewrite ?(walk_empty_prefix d _ Hroot_dir); exact Hps.
Qed.

(** * A successful start *)






(** * The theorems at work on the concrete host *)





(** C3.  The target [/%00] names nothing under the served directory,
    but the request for it is not answered 404: [open] raises
    [ValueError], which [send_head] does not catch, and the connection
    is closed without any response.  The server goes on and answers the
    next connection. *)
Theorem C3_null_byte_gets_no_response :
  let env := Scenario.env [Connection (GET "/%00"); Connection (GET "/swagger.html")] in
  Os.namei Scenario.disk []
    (HttpServer.translate_path (Pathlib.str (ServeDocs.DIRECTORY env)) "/%00")
  = None
  /\ ServeDocs.Handler env Scenario.disk [] (GET "/%00") = Raised ValueError
  /\ fst (ServeDocs.run env Scenario.host) = ServeDocs.StillRunning InSelect
  /\ exchanges (snd (ServeDocs.run env Scenario.host))
     = [(GET "/%00", Dropped ValueError);
        (GET "/swagger.html", Answered Scenario.swagger_response)].
Proof. repeat split; vm_compute; reflexivity. Qed.

Lemma C4_witness :
  exists w',
    ServeDocs.run (Scenario.env [Connection (GET "/swagger.html"); Sigint]) Scenario.host
    = (ServeDocs.Exited 0 None, w')
    /\ ServeDocs.state_of w' = Some ServeDocs.StStopped
    /\ stdout w' = (stdout Scenario.host ++ [banner; farewell])%list.
Proof.
  destruct (C4_interrupt_while_listening
              (Scenario.env [Connection (GET "/swagger.html"); Sigint]) Scenario.host
              [GET "/swagger.html"] [])
    as [_ (w' & H1 & H2 & H3 & _)];
    [vm_compute; reflexivity|vm_compute; reflexivity|vm_compute; reflexivity|].
  exists w'. auto.
Defined.

(** The second instance: the first one listens on the host, and the
    one started next to it fails at once. *)
Lemma C5_witness :
  fst (ServeDocs.run (Scenario.env []) Scenario.host) = ServeDocs.StillRunning InSelect
  /\ exists w',
       ServeDocs.run (Scenario.env [])
         (ServeDocs.spawn (snd (ServeDocs.run (Scenario.env []) Scenario.host)))
       = (ServeDocs.Exited 1 (Some OSError), w').
Proof.
  split; [vm_compute; reflexivity|].
  destruct (C5_port_in_use_is_fatal (Scenario.env [])
              (ServeDocs.spawn (snd (ServeDocs.run (Scenario.env []) Scenario.host))))
    as (w' & H1 & _); [discriminate|vm_compute; reflexivity|].
  exists w'. exact H1.
Defined.

(** C6 as the specification words it fails: the directory of the
    script does not exist, yet [main] starts, prints the banner, listens
    and answers. *)
Lemma C6_missing_root_still_starts :
  let env := Scenario.env_gone [Connection (GET "/swagger.html")] in
  Os.namei Scenario.disk [] (Pathlib.str (ServeDocs.DIRECTORY env)) = None
  /\ fst (ServeDocs.run env Scenario.host) = ServeDocs.StillRunning InSelect
  /\ sock (snd (ServeDocs.run env Scenario.host)) = Listening
  /\ stdout (snd (ServeDocs.run env Scenario.host)) = [banner]
  /\ exchanges (snd (ServeDocs.run env Scenario.host))
     = [(GET "/swagger.html",
         Answered (HttpServer.send_error "GET" 404 "File not found"))].
Proof. repeat split; vm_compute; reflexivity. Qed.

Lemma C6_witness :
  Os.namei Scenario.disk [] (Pathlib.str (ServeDocs.DIRECTORY (Scenario.env_gone []))) = None
  /\ exists w',
       ServeDocs.run (Scenario.env_gone [Connection (GET "/swagger.html")]) Scenario.host
       = (ServeDocs.StillRunning InSelect, w')
       /\ ServeDocs.state_of w' = Some ServeDocs.StListening.
Proof.
  split; [vm_compute; reflexivity|].
  destruct (C6_missing_root_serves_404
              (Scenario.env_gone [Connection (GET "/swagger.html")]) Scenario.host
              [GET "/swagger.html"])
    as [(w' & H1 & H2 & _) _];
    [vm_compute; reflexivity|vm_compute; reflexivity|vm_compute; reflexivity
    |vm_compute; reflexivity|].
  exists w'. auto.
Defined.




Lemma C10_witness :
  exists status w',
    ServeDocs.run Scenario.env_interrupted Scenario.host
    = (ServeDocs.Exited status (Some KeyboardInterrupt), w')
    /\ status <> 0%Z.
Proof.
  destruct (C10_early_interrupt_uncaught Scenario.env_interrupted Scenario.host
              InBrowserOpen)
    as (status & w' & H1 & H2 & _);
    [vm_compute; reflexivity|right; reflexivity|vm_compute; reflexivity|].
  exists status, w'. auto.
Defined.

(** * HEAD and GET *)

Section HeadAndGet.

Variable mime : string -> option string.
Variable d : Os.node.
Variable cwd : list string.
Variable directory : string.

Lemma send_error_HEAD (code : Z) (msg : string) :
  HttpServer.send_error "HEAD" code msg
  = without_body (HttpServer.send_error "GET" code msg).
Proof. reflexivity. Qed.

Lemma send_file_HEAD (p : string) :
  HttpServer.send_file mime d cwd "HEAD" p
  = map_result head_of_pair (HttpServer.send_file mime d cwd "GET" p).
Proof.
  unfold HttpServer.send_file.
  destruct (Str.endswith p "/"); [reflexivity|].
  destruct (Os.open_rb d cwd p) as [c|[]|b]; reflexivity.
Qed.

Lemma list_directory_HEAD (p : string) :
  HttpServer.list_directory d cwd "HEAD" p
  = map_result head_of_pair (HttpServer.list_directory d cwd "GET" p).
Proof.
  unfold HttpServer.list_directory.
  destruct (Os.listdir d cwd p) as [c|[]|b]; reflexivity.
Qed.

Lemma send_head_HEAD (target : string) :
  HttpServer.send_head mime d cwd directory (HttpServer.mkRequest "HEAD" target)
  = map_result head_of_pair
      (HttpServer.send_head mime d cwd directory (HttpServer.mkRequest "GET" target)).
Proof.
  unfold HttpServer.send_head. cbn [HttpServer.path HttpServer.command].
  destruct (Os.isdir d cwd _); [|apply send_file_HEAD].
  destruct (negb _); [reflexivity|].
  destruct (find _ _); [apply send_file_HEAD|apply list_directory_HEAD].
Qed.

Lemma handle_HEAD_like_GET (target : string) :
  HttpServer.handle_one_request mime d cwd directory (HEAD target)
  = map_result without_body
      (HttpServer.handle_one_request mime d cwd directory (GET target)).
Proof.
  unfold HttpServer.handle_one_request, HEAD, GET. cbv zeta.
  cbn [HttpServer.command HttpServer.path].
  change (HttpServer.assoc ("do_" ++ "HEAD") (HttpServer.methods mime d cwd directory))
    with (Some (HttpServer.do_HEAD mime d cwd directory)).
  change (HttpServer.assoc ("do_" ++ "GET") (HttpServer.methods mime d cwd directory))
    with (Some (HttpServer.do_GET mime d cwd directory)).
  unfold HttpServer.do_HEAD, HttpServer.do_GET.
  rewrite send_head_HEAD.
  destruct (HttpServer.send_head mime d cwd directory _) as [[head [f|]]|e|b];
    reflexivity.
Qed.

End HeadAndGet.

(** X1.  A HEAD request is answered like the GET request for the same
    target, with the same status and headers and no body; where the GET
    handler raises, so does the HEAD handler. *)
Theorem X1_HEAD_is_GET_without_body (env : environment) (d : Os.node)
    (cwd : list string) (target : string) :
  ServeDocs.Handler env d cwd (HEAD target)
  = map_result without_body (ServeDocs.Handler env d cwd (GET target)).
Proof. apply handle_HEAD_like_GET. Qed.

(** * The statuses of the responses *)

Section Statuses.

Variable mime : string -> option string.
Variable d : Os.node.
Variable cwd : list string.
Variable directory : string.




End Statuses.


(** * Targets that end with a slash *)

Lemma all_chars_app (P : ascii -> bool) (a b : string) :
  all_chars P (a ++ b) = all_chars P a && all_chars P b.
Proof.
  induction a as [|c a IH]; [reflexivity|].
  cbn [append all_chars]. rewrite IH, andb_assoc. reflexivity.
Qed.

Lemma unquote_quote_app (s t : string) :
  UrlParse.unquote (UrlParse.quote s ++ t) = s ++ UrlParse.unquote t.
Proof.
  induction s as [|c s IH]; [reflexivity|].
  cbn [UrlParse.quote].
  destruct (UrlParse.always_safe c || Ascii.eqb c "/") eqn:E.
  - cbn [append UrlParse.unquote]. rewrite (safe_not_percent c E), IH. reflexivity.
  - cbv zeta. cbn [append UrlParse.unquote].
    change (Ascii.eqb "%" "%") with true. cbv iota.
    destruct (hexdigit_facts c) as (_ & _ & H3 & H4 & H5). cbv zeta in H3, H4, H5.
    rewrite H3, H4, H5, IH. reflexivity.
Qed.

Lemma normpath_step_empty (k : nat) (acc : list string) :
  PosixPath.normpath_step k acc "" = acc.
Proof. reflexivity. Qed.

Lemma normpath_clean_slash (names : list string) :
  names <> [] -> Forall plain names ->
  PosixPath.normpath (String "/" (Str.join "/" names ++ "/"))
  = String "/" (Str.join "/" names).
Proof.
  intros Hne H. unfold PosixPath.normpath.
  change (String "/" (Str.join "/" names ++ "/") =? "") with false. cbv iota.
  rewrite startswith_cons. change (Ascii.eqb "/" "/") with true. cbv iota.
  assert (Hrel : Str.join "/" names <> "").
  { destruct H as [|n rest Hn _]; [congruence|].
    apply join_first_nonempty. apply (plain_name_inv n Hn). }
  assert (Hs : Str.startswith (Str.join "/" names ++ "/") "/" = false).
  { rewrite startswith_app by exact Hrel. apply join_no_leading_slash; assumption. }
  rewrite (startswith_two_slashes _ Hs).
  cbn [andb]. cbv zeta.
  unfold PosixPath.sep.
  cbn [Str.split]. change (Ascii.eqb "/" "/") with true. cbv iota.
  change (Str.join "/" names ++ "/") with (Str.join "/" names ++ String "/" "").
  rewrite split_app_sep, (split_join names Hne H).
  cbn [Str.split fold_left]. rewrite fold_left_app. cbn [fold_left].
  rewrite !normpath_step_empty.
  rewrite (normpath_fold_plain 1 names [] H), app_nil_r, rev_involutive.
  reflexivity.
Qed.

Lemma target_slash_clean (names : list string) :
  Str.before "#" (Str.before "?" (target_of names ++ "/")) = target_of names ++ "/"
  /\ Str.rstrip (target_of names ++ "/") = target_of names ++ "/".
Proof.
  assert (A : all_chars quoted_char (target_of names ++ "/") = true).
  { rewrite all_chars_app. unfold target_of. cbn [all_chars].
    rewrite quote_all_quoted. reflexivity. }
  split.
  - rewrite (before_without_sep "?").
    + apply before_without_sep.
      apply (all_chars_contains quoted_char); [|exact A].
      intros c Hc. apply (quoted_char_facts c Hc).
    + apply (all_chars_contains quoted_char); [|exact A].
      intros c Hc. apply (quoted_char_facts c Hc).
  - apply rstrip_without_space.
    apply (all_chars_impl quoted_char); [|exact A].
    intros c Hc. destruct (quoted_char_facts c Hc) as (-> & _). reflexivity.
Qed.

Lemma translate_path_target_slash (directory : string) (names : list string) :
  names <> [] -> Forall plain names ->
  HttpServer.translate_path directory (target_of names ++ "/")
  = fold_left PosixPath.join names directory ++ "/".
Proof.
  intros Hne H. rewrite translate_path_words. cbv zeta.
  assert (W : HttpServer.requested_words (target_of names ++ "/") = names).
  { unfold HttpServer.requested_words. cbv zeta.
    destruct (target_slash_clean names) as [-> _].
    unfold target_of. cbn [append UrlParse.unquote].
    change (Ascii.eqb "/" "%") with false. cbv iota.
    rewrite unquote_quote_app. change (UrlParse.unquote "/") with "/".
    rewrite (normpath_clean_slash names Hne H).
    cbn [Str.split]. change (Ascii.eqb "/" "/") with true. cbv iota.
    rewrite (split_join names Hne H).
    cbn [filter String.eqb negb].
    rewrite (filter_plain_nonempty names H). apply filter_plain_kept. exact H. }
  assert (T : HttpServer.trailing_slash (target_of names ++ "/") = true).
  { unfold HttpServer.trailing_slash.
    destruct (target_slash_clean names) as [-> ->].
    rewrite endswith_app_nonempty by discriminate. reflexivity. }
  rewrite W, T. reflexivity.
Qed.

Lemma translate_path_dir_target (directory : string) (names : list string) :
  Forall plain names ->
  HttpServer.translate_path directory (dir_target_of names)
  = fold_left PosixPath.join names directory ++ "/".
Proof.
  intros H. destruct names as [|n rest].
  - rewrite translate_path_words. reflexivity.
  - apply translate_path_target_slash; [discriminate|exact H].
Qed.

Lemma startswith_two_slashes_eq (s : string) :
  Str.startswith (String "/" s) "//" = Str.startswith s "/".
Proof.
  unfold Str.startswith. cbn [String.prefix].
  destruct (ascii_dec "/" "/") as [_|N]; [reflexivity|congruence].
Qed.

Lemma target_slash_no_double_slash (names : list string) :
  Forall plain names ->
  Str.startswith (dir_target_of names) "//" = false.
Proof.
  intros H. destruct names as [|n rest]; [reflexivity|].
  pose proof (target_no_double_slash (n :: rest)) as T.
  specialize (T ltac:(discriminate) H).
  unfold dir_target_of, target_of in *. cbn [append].
  rewrite startswith_two_slashes_eq in *.
  assert (Q : UrlParse.quote (Str.join "/" (n :: rest)) <> "").
  { intros Q. apply quote_empty in Q. inversion H; subst.
    refine (join_first_nonempty n rest _ Q).
    match goal with X : plain n |- _ => apply (plain_name_inv n X) end. }
  rewrite startswith_app by exact Q. exact T.
Qed.

(** * Resolving with a final slash *)

Lemma namei_trailing_slash_down (d : Os.node) (cwd : list string) (p : string)
    (l : list string) :
  p <> "" ->
  Os.namei d cwd p = Some l ->
  Os.is_dir_at d l = true ->
  Os.namei d cwd (p ++ "/") = Some l.
Proof.
  intros Hp. unfold Os.namei.
  rewrite (eqb_empty_false p Hp).
  destruct (p ++ "/" =? "") eqn:E.
  { apply String.eqb_eq in E. apply append_eq_empty in E. destruct E; congruence. }
  rewrite (startswith_app p "/" "/" Hp).
  change (p ++ "/") with (p ++ String "/" "").
  rewrite split_app_sep, fold_left_app. cbn [Str.split fold_left].
  intros -> Hd. apply walk_step_stay. exact Hd.
Qed.

Lemma has_nul_app (a b : string) :
  Os.has_nul (a ++ b) = Os.has_nul a || Os.has_nul b.
Proof. apply contains_app. Qed.

Section Located.

Variable d : Os.node.
Variable cwd : list string.
Variable directory : string.
Variable rootloc : list string.
Hypothesis directory_nonempty : directory <> "".
Hypothesis directory_clean : Os.has_nul directory = false.
Hypothesis directory_found : Os.namei d cwd directory = Some rootloc.

Variable names : list string.
Hypothesis names_valid : Forall (fun n => Os.file_name n = true) names.

Lemma names_plain : Forall plain names.
Proof.
  eapply Forall_impl; [|exact names_valid]. intros n Hn. apply (file_name_inv n Hn).
Qed.

Lemma local_nonempty : local_path directory names <> "".
Proof. apply fold_join_nonempty. exact directory_nonempty. Qed.

Lemma local_clean : Os.has_nul (local_path directory names) = false.
Proof.
  apply has_nul_fold_join; [|exact directory_clean].
  eapply Forall_impl; [|exact names_valid]. intros n Hn. apply (file_name_inv n Hn).
Qed.

(** The local path of an entry under the directory names that entry. *)
Lemma local_found (x : Os.node) :
  Os.lookup d (rootloc ++ names)%list = Some x ->
  Os.namei d cwd (local_path directory names) = Some (rootloc ++ names)%list
  /\ Os.stat d cwd (local_path directory names) = Returned x.
Proof.
  intros Hx.
  pose proof (namei_fold_join_down d cwd names names_plain directory rootloc x
                directory_nonempty directory_found Hx) as Hn.
  fold (local_path directory names) in Hn.
  split; [exact Hn|].
  unfold Os.stat. rewrite local_clean, Hn, Hx. reflexivity.
Qed.

(** With a final slash, the local path names the entry if it is a
    directory and nothing otherwise. *)
Lemma local_slash_stat (x : Os.node) :
  Os.lookup d (rootloc ++ names)%list = Some x ->
  Os.stat d cwd (local_path directory names ++ "/")
  = match x with
    | Os.Dir _ _ => Returned x
    | Os.File _ _ => Raised OSError
    end.
Proof.
  intros Hx. destruct (local_found x Hx) as [Hn _].
  unfold Os.stat. rewrite has_nul_app, local_clean. cbn [orb].
  change (Os.has_nul "/") with false. cbv iota.
  destruct x as [r c|r entries].
  - destruct (Os.namei d cwd (local_path directory names ++ "/")) as [loc|] eqn:N; [|reflexivity].
    exfalso. unfold Os.namei in N, Hn.
    rewrite (eqb_empty_false (local_path directory names) local_nonempty) in Hn.
    destruct (local_path directory names ++ "/" =? ""); [discriminate|].
    rewrite (startswith_app (local_path directory names) "/" "/" local_nonempty) in N.
    change (local_path directory names ++ "/")
      with (local_path directory names ++ String "/" "") in N.
    rewrite split_app_sep, fold_left_app in N. cbn [Str.split fold_left] in N.
    rewrite Hn in N. unfold Os.walk_step, Os.is_dir_at in N. rewrite Hx in N.
    discriminate.
  - rewrite (namei_trailing_slash_down d cwd (local_path directory names) _ local_nonempty Hn).
    + rewrite Hx. reflexivity.
    + unfold Os.is_dir_at. rewrite Hx. reflexivity.
Qed.

(** An entry of a directory, through the path of the directory with
    its final slash. *)
Lemma entry_stat (r : bool) (entries : list (string * Os.node)) (name : string) :
  Os.lookup d (rootloc ++ names)%list = Some (Os.Dir r entries) ->
  Os.file_name name = true ->
  Os.stat d cwd (PosixPath.join (local_path directory names ++ "/") name)
  = match Os.child name entries with
    | Some y => Returned y
    | None => Raised OSError
    end.
Proof.
  intros Hx Hname. destruct (file_name_inv name Hname) as [Hplain Hnul].
  destruct (local_found _ Hx) as [Hn _].
  assert (Hne : (local_path directory names) ++ "/" <> "").
  { intros E. apply append_eq_empty in E. destruct E; discriminate. }
  assert (Hdir : Os.is_dir_at d (rootloc ++ names) = true).
  { unfold Os.is_dir_at. rewrite Hx. reflexivity. }
  pose proof (namei_trailing_slash_down d cwd (local_path directory names) _
                local_nonempty Hn Hdir) as Hs.
  assert (Hl : Os.lookup d ((rootloc ++ names) ++ [name])%list = Os.child name entries).
  { rewrite lookup_app, Hx. cbn [Os.lookup].
    destruct (Os.child name entries); reflexivity. }
  unfold Os.stat.
  assert (Hc : Os.has_nul (PosixPath.join (local_path directory names ++ "/") name) = false).
  { apply has_nul_join; [|exact Hnul].
    rewrite has_nul_app, local_clean. reflexivity. }
  rewrite Hc.
  destruct (Os.child name entries) as [y|] eqn:C.
  - rewrite (namei_join_down d cwd (local_path directory names ++ "/") name _ y
               Hne Hplain Hs Hdir Hl).
    rewrite Hl. reflexivity.
  - destruct (Os.namei d cwd (PosixPath.join (local_path directory names ++ "/") name))
      as [loc|] eqn:N; [|reflexivity].
    destruct (namei_join d cwd (local_path directory names ++ "/") name loc
                Hne Hplain N) as (l0 & H0 & ->).
    rewrite Hs in H0. inversion H0. subst l0. rewrite Hl. reflexivity.
Qed.

End Located.

(** * Requests for directories *)

Lemma after_without_sep (sep : ascii) (s : string) :
  Str.contains s sep = false -> HttpServer.after sep s = "".
Proof.
  induction s as [|c s IH]; [reflexivity|]. cbn [Str.contains HttpServer.after].
  intros H. apply orb_false_iff in H. destruct H as [Hc Hs].
  rewrite Hc. exact (IH Hs).
Qed.

Lemma quoted_without_markers (s : string) :
  all_chars quoted_char s = true ->
  Str.contains s "?" = false /\ Str.contains s "#" = false.
Proof.
  intros A. split; apply (all_chars_contains quoted_char); try exact A;
    intros c Hc; apply (quoted_char_facts c Hc).
Qed.

Lemma target_quoted (names : list string) :
  all_chars quoted_char (target_of names) = true.
Proof. unfold target_of. cbn [all_chars]. rewrite quote_all_quoted. reflexivity. Qed.

Lemma dir_target_quoted (names : list string) :
  all_chars quoted_char (dir_target_of names) = true.
Proof.
  destruct names as [|n rest]; [reflexivity|].
  unfold dir_target_of. rewrite all_chars_app, target_quoted. reflexivity.
Qed.

Lemma urlsplit_path_quoted (s : string) :
  all_chars quoted_char s = true -> UrlParse.urlsplit_path s = s.
Proof.
  intros A. destruct (quoted_without_markers s A) as [H1 H2].
  unfold UrlParse.urlsplit_path.
  rewrite (before_without_sep "#" s H2). apply before_without_sep. exact H1.
Qed.

Lemma redirect_location_quoted (mime : string -> option string) (s : string) :
  all_chars quoted_char s = true -> HttpServer.redirect_location s = s ++ "/".
Proof.
  intros A. destruct (quoted_without_markers s A) as [H1 H2].
  unfold HttpServer.redirect_location. cbv zeta.
  rewrite (before_without_sep "#" s H2), (before_without_sep "?" s H1).
  rewrite (after_without_sep "#" s H2), (after_without_sep "?" s H1).
  reflexivity.
Qed.

Lemma target_not_endswith_slash (names : list string) :
  names <> [] -> Forall plain names -> Str.endswith (target_of names) "/" = false.
Proof.
  intros Hne H. pose proof (trailing_slash_target names Hne H) as T.
  unfold HttpServer.trailing_slash in T.
  destruct (target_clean names) as [E1 E2]. rewrite E1, E2 in T. exact T.
Qed.

Lemma dir_target_endswith_slash (names : list string) :
  Str.endswith (dir_target_of names) "/" = true.
Proof.
  destruct names as [|n rest]; [reflexivity|].
  unfold dir_target_of. rewrite endswith_app_nonempty by discriminate. reflexivity.
Qed.

Lemma find_ext_in {A : Type} (f g : A -> bool) (l : list A) :
  (forall x, In x l -> f x = g x) -> find f l = find g l.
Proof.
  induction l as [|x l IH]; intros H; [reflexivity|].
  cbn [find]. rewrite (H x (or_introl eq_refl)).
  destruct (g x); [reflexivity|]. apply IH. intros y Hy. apply H. right. exact Hy.
Qed.

Lemma index_pages_file_name (index : string) :
  In index HttpServer.index_pages -> Os.file_name index = true.
Proof. intros [<-|[<-|[]]]; reflexivity. Qed.

Section DirectoryRequests.

Variable mime : string -> option string.
Variable d : Os.node.
Variable cwd : list string.
Variable directory : string.
Variable rootloc : list string.
Hypothesis directory_nonempty : directory <> "".
Hypothesis directory_clean : Os.has_nul directory = false.
Hypothesis directory_found : Os.namei d cwd directory = Some rootloc.

Variable names : list string.
Hypothesis names_valid : Forall (fun n => Os.file_name n = true) names.

Lemma GET_begins (target : string) :
  Str.startswith target "//" = false ->
  HttpServer.handle_one_request mime d cwd directory (GET target)
  = HttpServer.do_GET mime d cwd directory (GET target).
Proof.
  intros H. unfold HttpServer.handle_one_request, GET. cbv zeta.
  cbn [HttpServer.command HttpServer.path].
  unfold HttpServer.collapse_slashes. rewrite H. reflexivity.
Qed.

(** A directory asked for without its final slash. *)
Lemma GET_directory_redirects (r : bool) (entries : list (string * Os.node)) :
  names <> [] ->
  Os.lookup d (rootloc ++ names)%list = Some (Os.Dir r entries) ->
  HttpServer.handle_one_request mime d cwd directory (GET (target_of names))
  = Returned
      {| HttpServer.status := 301;
         HttpServer.headers := [("Location", target_of names ++ "/");
                                ("Content-Length", "0")];
         HttpServer.payload := HttpServer.NoBody |}.
Proof.
  intros Hne Hx. pose proof (names_plain names names_valid) as Hplain.
  rewrite GET_begins by (apply target_no_double_slash; assumption).
  unfold HttpServer.do_GET, HttpServer.send_head, GET.
  cbn [HttpServer.path HttpServer.command].
  rewrite (translate_path_target directory names Hne Hplain).
  fold (local_path directory names).
  destruct (local_found d cwd directory rootloc directory_nonempty directory_clean
              directory_found names names_valid _ Hx) as [_ Hstat].
  unfold Os.isdir. rewrite Hstat.
  rewrite (urlsplit_path_quoted _ (target_quoted names)).
  rewrite (target_not_endswith_slash names Hne Hplain). cbn [negb].
  rewrite (redirect_location_quoted mime _ (target_quoted names)).
  reflexivity.
Qed.

Lemma isfile_entry (r : bool) (entries : list (string * Os.node)) (index : string) :
  Os.lookup d (rootloc ++ names)%list = Some (Os.Dir r entries) ->
  In index HttpServer.index_pages ->
  Os.isfile d cwd (PosixPath.join (local_path directory names ++ "/") index)
  = is_file_entry entries index.
Proof.
  intros Hx Hin. unfold Os.isfile, is_file_entry.
  rewrite (entry_stat d cwd directory rootloc directory_nonempty directory_clean
             directory_found names names_valid r entries index Hx
             (index_pages_file_name index Hin)).
  destruct (Os.child index entries) as [[]|]; reflexivity.
Qed.

Lemma GET_directory_begins (r : bool) (entries : list (string * Os.node)) :
  Os.lookup d (rootloc ++ names)%list = Some (Os.Dir r entries) ->
  HttpServer.send_head mime d cwd directory (GET (dir_target_of names))
  = match index_of entries with
    | Some index =>
        HttpServer.send_file mime d cwd "GET"
          (PosixPath.join (local_path directory names ++ "/") index)
    | None =>
        HttpServer.list_directory d cwd "GET" (local_path directory names ++ "/")
    end.
Proof.
  intros Hx. pose proof (names_plain names names_valid) as Hplain.
  unfold HttpServer.send_head, GET. cbn [HttpServer.path HttpServer.command].
  rewrite (translate_path_dir_target directory names Hplain).
  fold (local_path directory names).
  unfold Os.isdir.
  rewrite (local_slash_stat d cwd directory rootloc directory_nonempty directory_clean
             directory_found names names_valid _ Hx).
  rewrite (urlsplit_path_quoted _ (dir_target_quoted names)).
  rewrite dir_target_endswith_slash. cbn [negb].
  unfold index_of.
  rewrite (find_ext_in _ (is_file_entry entries) HttpServer.index_pages
             (fun index Hin => isfile_entry r entries index Hx Hin)).
  reflexivity.
Qed.

(** A directory that has an index page. *)
Lemma GET_directory_index (r : bool) (entries : list (string * Os.node))
    (index : string) (readable : bool) (content : list Byte.byte) :
  Os.lookup d (rootloc ++ names)%list = Some (Os.Dir r entries) ->
  index_of entries = Some index ->
  Os.child index entries = Some (Os.File readable content) ->
  HttpServer.handle_one_request mime d cwd directory (GET (dir_target_of names))
  = Returned
      (if readable then
         {| HttpServer.status := 200;
            HttpServer.headers :=
              [("Content-type",
                HttpServer.guess_type mime
                  (PosixPath.join (local_path directory names ++ "/") index));
               ("Content-Length", HttpServer.str_of_nat (List.length content))];
            HttpServer.payload := HttpServer.FileContent content |}
       else HttpServer.send_error "GET" 404 "File not found").
Proof.
  intros Hx Hindex Hchild. pose proof (names_plain names names_valid) as Hplain.
  rewrite GET_begins by (apply target_slash_no_double_slash; assumption).
  unfold HttpServer.do_GET. rewrite (GET_directory_begins r entries Hx), Hindex.
  assert (Hin : In index HttpServer.index_pages).
  { unfold index_of in Hindex. apply find_some in Hindex. tauto. }
  unfold HttpServer.send_file.
  assert (Hne : local_path directory names ++ "/" <> "").
  { intros E. apply append_eq_empty in E. destruct E; discriminate. }
  rewrite (endswith_join_plain _ index Hne
             (proj1 (file_name_inv index (index_pages_file_name index Hin)))).
  unfold Os.open_rb.
  rewrite (entry_stat d cwd directory rootloc directory_nonempty directory_clean
             directory_found names names_valid r entries index Hx
             (index_pages_file_name index Hin)).
  rewrite Hchild. destruct readable; reflexivity.
Qed.


(** A regular file asked for with a final slash. *)
Lemma GET_file_with_slash (r : bool) (content : list Byte.byte) :
  names <> [] ->
  Os.lookup d (rootloc ++ names)%list = Some (Os.File r content) ->
  HttpServer.handle_one_request mime d cwd directory (GET (target_of names ++ "/"))
  = Returned (HttpServer.send_error "GET" 404 "File not found").
Proof.
  intros Hne Hx. pose proof (names_plain names names_valid) as Hplain.
  assert (E : target_of names ++ "/" = dir_target_of names).
  { destruct names; [congruence|reflexivity]. }
  rewrite E.
  rewrite GET_begins by (apply target_slash_no_double_slash; assumption).
  unfold HttpServer.do_GET, HttpServer.send_head, GET.
  cbn [HttpServer.path HttpServer.command].
  rewrite (translate_path_dir_target directory names Hplain).
  fold (local_path directory names).
  unfold Os.isdir.
  rewrite (local_slash_stat d cwd directory rootloc directory_nonempty directory_clean
             directory_found names names_valid _ Hx).
  unfold HttpServer.send_file.
  rewrite endswith_app_nonempty by discriminate. reflexivity.
Qed.

End DirectoryRequests.

(** X3.  A directory under the served directory, requested by GET
    without a final slash, is not served: the answer is 301 with the
    same target closed by a slash as its [Location]. *)
Theorem X3_directory_without_slash_redirects (env : environment) (d : Os.node)
    (cwd rootloc names : list string) (r : bool) (entries : list (string * Os.node)) :
  Os.has_nul (Pathlib.str (ServeDocs.DIRECTORY env)) = false ->
  Os.namei d cwd (Pathlib.str (ServeDocs.DIRECTORY env)) = Some rootloc ->
  names <> [] ->
  Forall (fun n => Os.file_name n = true) names ->
  Os.lookup d (rootloc ++ names)%list = Some (Os.Dir r entries) ->
  ServeDocs.Handler env d cwd (GET (target_of names))
  = Returned
      {| HttpServer.status := 301;
         HttpServer.headers := [("Location", target_of names ++ "/");
                                ("Content-Length", "0")];
         HttpServer.payload := HttpServer.NoBody |}.
Proof.
  intros Hnul Hroot Hne Hnames Hx. unfold ServeDocs.Handler.
  exact (GET_directory_redirects (mimetypes env) d cwd _ rootloc
           (pathlib_str_nonempty _) Hnul Hroot names Hnames r entries Hne Hx).
Qed.

(** X4.  A directory requested with its final slash (the served
    directory itself by [/]) is answered with its index page when it
    has one: the first of [index.html] and [index.htm] that is a regular
    file is sent with status 200 and the content type of its extension.
    If that file cannot be read the answer is 404: neither the other
    index page nor a listing is tried. *)
Theorem X4_directory_index_page (env : environment) (d : Os.node)
    (cwd rootloc names : list string) (r : bool) (entries : list (string * Os.node))
    (index : string) (readable : bool) (content : list Byte.byte) :
  let directory := Pathlib.str (ServeDocs.DIRECTORY env) in
  Os.has_nul directory = false ->
  Os.namei d cwd directory = Some rootloc ->
  Forall (fun n => Os.file_name n = true) names ->
  Os.lookup d (rootloc ++ names)%list = Some (Os.Dir r entries) ->
  index_of entries = Some index ->
  Os.child index entries = Some (Os.File readable content) ->
  ServeDocs.Handler env d cwd (GET (dir_target_of names))
  = Returned
      (if readable then
         {| HttpServer.status := 200;
            HttpServer.headers :=
              [("Content-type",
                HttpServer.guess_type (mimetypes env)
                  (PosixPath.join (local_path directory names ++ "/") index));
               ("Content-Length", HttpServer.str_of_nat (List.length content))];
            HttpServer.payload := HttpServer.FileContent content |}
       else HttpServer.send_error "GET" 404 "File not found").
Proof.
  intros directory Hnul Hroot Hnames Hx Hindex Hchild. unfold ServeDocs.Handler.
  exact (GET_directory_index (mimetypes env) d cwd _ rootloc
           (pathlib_str_nonempty _) Hnul Hroot names Hnames r entries index readable
           content Hx Hindex Hchild).
Qed.


(** X6.  A regular file requested with a slash after its name is
    answered 404, readable or not. *)
Theorem X6_file_with_final_slash_404 (env : environment) (d : Os.node)
    (cwd rootloc names : list string) (r : bool) (content : list Byte.byte) :
  Os.has_nul (Pathlib.str (ServeDocs.DIRECTORY env)) = false ->
  Os.namei d cwd (Pathlib.str (ServeDocs.DIRECTORY env)) = Some rootloc ->
  names <> [] ->
  Forall (fun n => Os.file_name n = true) names ->
  Os.lookup d (rootloc ++ names)%list = Some (Os.File r content) ->
  ServeDocs.Handler env d cwd (GET (target_of names ++ "/"))
  = Returned (HttpServer.send_error "GET" 404 "File not found").
Proof.
  intros Hnul Hroot Hne Hnames Hx. unfold ServeDocs.Handler.
  exact (GET_file_with_slash (mimetypes env) d cwd _ rootloc
           (pathlib_str_nonempty _) Hnul Hroot names Hnames r content Hne Hx).
Qed.

(** * Query strings and fragments *)










Section Suffix.

Variable mime : string -> option string.
Variable d : Os.node.
Variable cwd : list string.
Variable directory : string.



End Suffix.


(** * Every run of [main] *)














(** * The script among the files it serves *)

Section FileRequests.

Variable mime : string -> option string.
Variable d : Os.node.
Variable cwd : list string.
Variable directory : string.
Variable rootloc : list string.
Hypothesis directory_nonempty : directory <> "".
Hypothesis directory_clean : Os.has_nul directory = false.
Hypothesis directory_found : Os.namei d cwd directory = Some rootloc.

Variable names : list string.
Hypothesis names_valid : Forall (fun n => Os.file_name n = true) names.

(** A readable regular file asked for by its name. *)
Lemma GET_file_served (content : list Byte.byte) :
  names <> [] ->
  Os.lookup d (rootloc ++ names)%list = Some (Os.File true content) ->
  HttpServer.handle_one_request mime d cwd directory (GET (target_of names))
  = Returned
      {| HttpServer.status := 200;
         HttpServer.headers :=
           [("Content-type", HttpServer.guess_type mime (local_path directory names));
            ("Content-Length", HttpServer.str_of_nat (List.length content))];
         HttpServer.payload := HttpServer.FileContent content |}.
Proof.
  intros Hne Hx. pose proof (names_plain names names_valid) as Hplain.
  rewrite (GET_begins mime d cwd directory)
    by (apply target_no_double_slash; assumption).
  unfold HttpServer.do_GET, HttpServer.send_head, GET.
  cbn [HttpServer.path HttpServer.command].
  rewrite (translate_path_target directory names Hne Hplain).
  fold (local_path directory names).
  destruct (local_found d cwd directory rootloc directory_nonempty directory_clean
              directory_found names names_valid _ Hx) as [_ Hstat].
  unfold Os.isdir. rewrite Hstat.
  unfold HttpServer.send_file.
  unfold local_path at 1.
  rewrite (endswith_fold_join names directory Hne Hplain directory_nonempty).
  unfold Os.open_rb. fold (local_path directory names). rewrite Hstat. reflexivity.
Qed.

End FileRequests.

Lemma split_contains (c z : ascii) (s w : string) :
  In w (Str.split c s) -> Str.contains s z = false -> Str.contains w z = false.
Proof.
  revert w. induction s as [|a s IH]; cbn [Str.split Str.contains]; intros w H Hz.
  - destruct H as [<-|[]]. reflexivity.
  - apply orb_false_iff in Hz. destruct Hz as [Ha Hs].
    destruct (Ascii.eqb a c).
    + destruct H as [<-|H]; [reflexivity|auto].
    + destruct (Str.split c s) as [|x xs] eqn:S.
      * destruct H as [<-|[]]. cbn [Str.contains]. rewrite Ha. reflexivity.
      * destruct H as [<-|H].
        -- cbn [Str.contains]. rewrite Ha. apply IH; [left; reflexivity|exact Hs].
        -- apply IH; [right; exact H|exact Hs].
Qed.

Lemma has_nul_join_list (l : list string) :
  Forall (fun n => Os.has_nul n = false) l -> Os.has_nul (Str.join "/" l) = false.
Proof.
  induction 1 as [|n rest Hn Hrest IH]; [reflexivity|].
  destruct rest as [|m rest']; [exact Hn|].
  rewrite join_cons2. rewrite has_nul_app, Hn. cbn [orb].
  unfold Os.has_nul in *. cbn [Str.contains]. exact IH.
Qed.

Lemma In_removelast {A : Type} (x : A) (l : list A) :
  In x (removelast l) -> In x l.
Proof.
  induction l as [|a l IH]; [auto|]. cbn [removelast].
  destruct l as [|b l']; [intros []|].
  intros [<-|H]; [left; reflexivity|right; apply IH; exact H].
Qed.

(** The name of the served directory holds no null byte when
    [__file__] holds none. *)
Lemma DIRECTORY_clean (env : environment) :
  Os.has_nul (script env) = false ->
  Os.has_nul (Pathlib.str (ServeDocs.DIRECTORY env)) = false.
Proof.
  intros Hs. unfold ServeDocs.DIRECTORY. set (s := script env) in *.
  assert (Hparts : Forall (fun n => Os.has_nul n = false)
                     (Pathlib.parts (Pathlib.parent (Pathlib.Path s)))).
  { apply Forall_forall. intros n Hn.
    assert (Hin : In n (Pathlib.parts (Pathlib.Path s))).
    { unfold Pathlib.parent in Hn.
      destruct (Pathlib.parts (Pathlib.Path s)) as [|p ps] eqn:E; [rewrite E in Hn|].
      - exact Hn.
      - cbn [Pathlib.parts] in Hn. apply In_removelast. exact Hn. }
    unfold Pathlib.Path in Hin. cbn [Pathlib.parts] in Hin.
    apply filter_In in Hin. destruct Hin as [Hin _].
    exact (split_contains "/" zero s n Hin Hs). }
  assert (Hroot : Os.has_nul (Pathlib.root (Pathlib.parent (Pathlib.Path s))) = false).
  { assert (E : Pathlib.root (Pathlib.parent (Pathlib.Path s))
                = Pathlib.root (Pathlib.Path s)).
    { unfold Pathlib.parent. destruct (Pathlib.parts (Pathlib.Path s)); reflexivity. }
    rewrite E. destruct (pathlib_root_cases s) as [[_ ->]|[_ [-> | ->]]]; reflexivity. }
  unfold Pathlib.str. cbv zeta.
  destruct (_ =? ""); [reflexivity|].
  rewrite has_nul_app, Hroot. apply has_nul_join_list. exact Hparts.
Qed.

(** The last step of a walk that ends on a regular file is a plain
    name, one of the components of the path. *)
Lemma script_name (d : Os.node) (cwd loc : list string) (s : string) (r : bool)
    (content : list Byte.byte) :
  Os.namei d cwd s = Some loc ->
  Os.lookup d loc = Some (Os.File r content) ->
  exists l n, loc = (l ++ [n])%list /\ plain n /\ In n (Str.split "/" s).
Proof.
  unfold Os.namei. destruct (s =? ""); [discriminate|].
  intros Hwalk Hfile.
  destruct (exists_last (split_nonempty "/" s)) as (cs & n & Hcs).
  rewrite Hcs, fold_left_app in Hwalk. cbn [fold_left] in Hwalk.
  destruct (fold_left (Os.walk_step d) cs _) as [l|]; [|discriminate].
  assert (Hin : In n (Str.split "/" s)).
  { rewrite Hcs. apply in_or_app. right. left. reflexivity. }
  pose proof (split_no_sep _ _ _ Hin) as Hc.
  destruct (walk_last_step_to_file d l loc n r content Hwalk Hfile) as (-> & Hk & Hd).
  exists l, n. split; [reflexivity|]. split; [|exact Hin].
  unfold kept_part in Hk. apply andb_true_iff in Hk. destruct Hk as [K1 K2].
  unfold plain, Os.plain_name. rewrite K1, K2, Hc. cbn [negb andb].
  destruct (n =? "..") eqn:E; [|reflexivity].
  exfalso. apply String.eqb_eq in E. subst n.
  revert Hwalk. unfold Os.walk_step. rewrite Hd. cbn [String.eqb Ascii.eqb Bool.eqb orb].
  intros H. inversion H as [H'].
  pose proof (is_dir_at_removelast d l Hd) as Hr.
  rewrite H' in Hr. unfold Os.is_dir_at in Hr. rewrite Hfile in Hr. discriminate.
Qed.

(** X12.  The script lies in the directory it serves, so it is among
    the files served: when [__file__] names a readable regular file, a
    GET request for the name of that file is answered 200 with the text
    of the script. *)
Theorem X12_script_is_served (env : environment) (d : Os.node) (cwd loc : list string)
    (content : list Byte.byte) :
  Os.has_nul (script env) = false ->
  Os.namei d cwd (script env) = Some loc ->
  Os.lookup d loc = Some (Os.File true content) ->
  exists ctype,
    ServeDocs.Handler env d cwd (GET (target_of [last loc ""]))
    = Returned
        {| HttpServer.status := 200;
           HttpServer.headers :=
             [("Content-type", ctype);
              ("Content-Length", HttpServer.str_of_nat (List.length content))];
           HttpServer.payload := HttpServer.FileContent content |}.
Proof.
  intros Hnul Hscript Hfile.
  destruct (script_name d cwd loc (script env) true content Hscript Hfile)
    as (l & n & -> & Hplain & Hin).
  pose proof (DIRECTORY_holds_script env d cwd _ true content Hscript Hfile) as Hdir.
  rewrite removelast_last in Hdir. rewrite last_last.
  eexists. unfold ServeDocs.Handler.
  apply (GET_file_served (mimetypes env) d cwd _ l (pathlib_str_nonempty _)
           (DIRECTORY_clean env Hnul) Hdir [n]).
  - constructor; [|constructor]. unfold Os.file_name. rewrite Hplain.
    unfold Os.has_nul. rewrite (split_contains "/" zero _ n Hin Hnul). reflexivity.
  - discriminate.
  - exact Hfile.
Qed.

(** * The further properties on the documentation tree *)


(** [/guide] is a directory of the tree. *)
Lemma X3_witness :
  ServeDocs.Handler (Scenario.env []) Site.disk [] (GET "/guide")
  = Returned
      {| HttpServer.status := 301;
         HttpServer.headers := [("Location", "/guide/"); ("Content-Length", "0")];
         HttpServer.payload := HttpServer.NoBody |}.
Proof.
  pose proof (X3_directory_without_slash_redirects (Scenario.env []) Site.disk []
                ["srv"; "docs"] ["guide"] true
                [("index.html", Os.File true Site.guide)]) as H.
  replace (GET "/guide") with (GET (target_of ["guide"])) by (vm_compute; reflexivity).
  rewrite H.
  - vm_compute; reflexivity.
  - vm_compute; reflexivity.
  - vm_compute; reflexivity.
  - discriminate.
  - constructor; [vm_compute; reflexivity|constructor].
  - vm_compute; reflexivity.
Defined.

(** [/guide/] has an index page. *)
Lemma X4_witness :
  ServeDocs.Handler (Scenario.env []) Site.disk [] (GET "/guide/")
  = Returned
      {| HttpServer.status := 200;
         HttpServer.headers := [("Content-type", "text/html"); ("Content-Length", "14")];
         HttpServer.payload := HttpServer.FileContent Site.guide |}.
Proof.
  pose proof (X4_directory_index_page (Scenario.env []) Site.disk []
                ["srv"; "docs"] ["guide"] true
                [("index.html", Os.File true Site.guide)] "index.html" true Site.guide) as H.
  cbv zeta in H.
  replace (GET "/guide/") with (GET (dir_target_of ["guide"])) by (vm_compute; reflexivity).
  rewrite H.
  - vm_compute; reflexivity.
  - vm_compute; reflexivity.
  - vm_compute; reflexivity.
  - constructor; [vm_compute; reflexivity|constructor].
  - vm_compute; reflexivity.
  - vm_compute; reflexivity.
  - vm_compute; reflexivity.
Defined.


(** [/swagger.html/] names nothing. *)
Lemma X6_witness :
  ServeDocs.Handler (Scenario.env []) Site.disk [] (GET "/swagger.html/")
  = Returned (HttpServer.send_error "GET" 404 "File not found").
Proof.
  pose proof (X6_file_with_final_slash_404 (Scenario.env []) Site.disk []
                ["srv"; "docs"] ["swagger.html"] true Scenario.page) as H.
  replace (GET "/swagger.html/") with (GET (target_of ["swagger.html"] ++ "/"))
    by (vm_compute; reflexivity).
  apply H.
  - vm_compute; reflexivity.
  - vm_compute; reflexivity.
  - discriminate.
  - constructor; [vm_compute; reflexivity|constructor].
  - vm_compute; reflexivity.
Defined.




(** The script of the documentation tree. *)
Lemma X12_witness :
  exists ctype,
    ServeDocs.Handler (Scenario.env []) Site.disk [] (GET "/serve_docs.py")
    = Returned
        {| HttpServer.status := 200;
           HttpServer.headers := [("Content-type", ctype); ("Content-Length", "22")];
           HttpServer.payload :=
             HttpServer.FileContent (list_byte_of_string "#!/usr/bin/env python3") |}.
Proof.
  destruct (X12_script_is_served (Scenario.env []) Site.disk []
              ["srv"; "docs"; "serve_docs.py"]
              (list_byte_of_string "#!/usr/bin/env python3")) as [ctype H].
  - vm_compute; reflexivity.
  - vm_compute; reflexivity.
  - vm_compute; reflexivity.
  - exists ctype.
    replace (GET "/serve_docs.py")
      with (GET (target_of [last ["srv"; "docs"; "serve_docs.py"] ""]))
      by (vm_compute; reflexivity).
    rewrite H. vm_compute; reflexivity.
Defined.

(** * The browser *)



